(** * Relay-style pagination of thunder's schemabuilder

    A shallow embedding of [graphql/schemabuilder/pagination.go]: the
    Connection / Edge / PageInfo data model, the cursor windowing
    ([getCursorIndex], [applyCursorsToAllEdges], [paginateManually]), the page
    markers ([getPages]), the connection assembly ([getConnection],
    [extractPaginatedRetAndErr]) and the build-time validation of the two
    binding modes ([connectionContext.Validate], [buildPaginatedField]).

    Conventions.
    - Go's [int] and [int64] are modelled by [Z].  The code is read for a
      64-bit target, where [int(x)] of an [int64] is the identity; every
      theorem below quantifies over all of [Z], hence over all machine values,
      and no arithmetic of the embedded functions can leave the machine range
      (indices are bounded by slice lengths).
    - A nil pointer is [None]; a nil slice and an empty slice are both [[]]
      (the code only ever takes [len] of, ranges over, or re-slices them).
    - A Go function with results [(T, error)] returns a pair whose second
      component is an [option error]; a pointer receiver that is mutated is
      threaded through as an explicit state.
    - A run-time panic (failed type assertion, index out of range) is the
      [Panics] outcome of the [go] monad. *)

From Stdlib Require Import ZArith List String Ascii Bool Lia ZifyNat DecimalString.
Import ListNotations.
Local Open Scope string_scope.
Local Open Scope list_scope.
Local Open Scope Z_scope.

(** ** Outcomes of Go calls that may panic *)

Inductive go (A : Type) : Type :=
| Returns (a : A)
| Panics (why : string).
Arguments Returns {A} a.
Arguments Panics {A} why.

Definition go_bind {A B : Type} (m : go A) (k : A -> go B) : go B :=
  match m with
  | Returns a => k a
  | Panics why => Panics why
  end.

Notation "'do' x <- m ; k" := (go_bind m (fun x => k))
  (at level 10, x name, m at level 100, k at level 200).

(** [len(s)] as a Go [int]. *)
Definition len {A : Type} (s : list A) : Z := Z.of_nat (List.length s).

(** ** Errors *)

(** [graphql.NewClientError], [fmt.Errorf] and whatever error value a
    resolver hands back.  A message that the source prefixes with the
    resolver's type ([%s] of [c.funcType]) is kept without that prefix. *)
Inductive error : Type :=
| ClientError (msg : string)
| Errorf (msg : string)
| ResolverError (msg : string).

(** ** base64.StdEncoding.EncodeToString *)

Module Base64.

Definition encodeStd : string :=
  "ABCDEFGHIJKLMNOPQRSTUVWXYZabcdefghijklmnopqrstuvwxyz0123456789+/".

Definition padChar : ascii := "="%char.

Definition sextet (n : nat) : ascii :=
  match String.get n encodeStd with
  | Some c => c
  | None => padChar
  end.

(** Three source bytes give four digits; a trailing group of one or two
    bytes is padded with [=]. *)
Fixpoint encode (src : list nat) : string :=
  match src with
  | [] => EmptyString
  | [a] =>
      String (sextet (a / 4))
        (String (sextet ((a mod 4) * 16))
           (String padChar (String padChar EmptyString)))
  | [a; b] =>
      String (sextet (a / 4))
        (String (sextet ((a mod 4) * 16 + b / 16))
           (String (sextet ((b mod 16) * 4))
              (String padChar EmptyString)))
  | a :: b :: c :: rest =>
      String (sextet (a / 4))
        (String (sextet ((a mod 4) * 16 + b / 16))
           (String (sextet ((b mod 16) * 4 + c / 64))
              (String (sextet (c mod 64)) (encode rest))))
  end%nat.

Fixpoint bytes (s : string) : list nat :=
  match s with
  | EmptyString => []
  | String c s' => nat_of_ascii c :: bytes s'
  end.

Definition EncodeToString (s : string) : string := encode (bytes s).

End Base64.

(** ** The binding context and its build-time validation *)

(** [connectionContext], with the fields of the embedded [funcContext] that
    the pagination code reads or writes. *)
Record connectionContext : Type := mkConnectionContext {
  hasArgs : bool;
  hasRet : bool;
  hasError : bool;
  Key : string;
  ReturnsPageInfo : bool;
  PaginationArgsIndex : Z
}.

(** [&connectionContext{funcContext: &funcContext{typ: typ}}]: every field
    at its zero value. *)
Definition newConnectionContext : connectionContext :=
  mkConnectionContext false false false "" false 0.

Definition embedsPaginationArgs (c : connectionContext) : bool :=
  negb (PaginationArgsIndex c =? -1).

Definition IsExternallyManaged (c : connectionContext) : bool :=
  embedsPaginationArgs c || ReturnsPageInfo c.

Definition Validate (c : connectionContext) : option error :=
  if IsExternallyManaged c && negb (embedsPaginationArgs c && ReturnsPageInfo c)
  then Some (Errorf "If pagination args are embedded then pagination info must be included as a return value")
  else None.

(** What the binder can tell about a [reflect.Type]. *)
#[warnings="-register-all"]
Inductive GoType : Type :=
| TError                                          (* errType *)
| TSelectionSet                                   (* selectionSetType *)
| TPaginationArgs                                 (* PaginationArgs{} *)
| TPaginationInfo                                 (* PaginationInfo{} *)
| TSlice (elem : GoType)
| TStruct (name : string) (fields : list GoType)  (* any other struct *)
| TScalar (name : string).                        (* anything else *)

Definition isErrType (t : GoType) : bool :=
  match t with TError => true | _ => false end.
Definition isSelectionSetType (t : GoType) : bool :=
  match t with TSelectionSet => true | _ => false end.
Definition isPaginationArgsType (t : GoType) : bool :=
  match t with TPaginationArgs => true | _ => false end.
Definition isPaginationInfoType (t : GoType) : bool :=
  match t with TPaginationInfo => true | _ => false end.
Definition isSliceKind (t : GoType) : bool :=
  match t with TSlice _ => true | _ => false end.

(** The loop of [indexOfPaginationArgs] from field [i] on. *)
Fixpoint indexOfPaginationArgsFrom (i : Z) (fields : list GoType) : Z :=
  match fields with
  | [] => -1
  | field :: rest =>
      if isPaginationArgsType field then i
      else indexOfPaginationArgsFrom (i + 1) rest
  end.

(** [NumField] panics on a type that is not a struct.  The fields of
    [PaginationArgs] and [PaginationInfo] themselves are pointers, booleans
    and a function: none is of type [PaginationArgs]. *)
Definition indexOfPaginationArgs (argType : GoType) : go Z :=
  match argType with
  | TStruct _ fields => Returns (indexOfPaginationArgsFrom 0 fields)
  | TPaginationArgs | TPaginationInfo => Returns (-1)
  | _ => Panics "reflect: NumField of non-struct type"
  end.

(** The collaborators of the binder that live outside pagination.go (or
    depend on such code): only whether each one reports an error matters
    here, so each is taken by its outcome. *)
Record Collaborators : Type := mkCollaborators {
  getFuncVal : option error;
  buildEmbeddedPaginatedArgParser : GoType -> option error;
  buildPaginatedArgParser : option GoType -> option error;
  consumeSelectionSet : list GoType -> list GoType;
  constructConnType : connectionContext -> GoType -> option error;
  getKeyFieldOnStruct : GoType -> string * option error
}.

Definition setPaginationArgsIndex (i : Z) (c : connectionContext)
  : connectionContext :=
  mkConnectionContext (hasArgs c) (hasRet c) (hasError c) (Key c)
    (ReturnsPageInfo c) i.
Definition setReturnsPageInfo (b : bool) (c : connectionContext)
  : connectionContext :=
  mkConnectionContext (hasArgs c) (hasRet c) (hasError c) (Key c)
    b (PaginationArgsIndex c).
Definition setHasRet (b : bool) (c : connectionContext) : connectionContext :=
  mkConnectionContext (hasArgs c) b (hasError c) (Key c)
    (ReturnsPageInfo c) (PaginationArgsIndex c).
Definition setHasError (b : bool) (c : connectionContext) : connectionContext :=
  mkConnectionContext (hasArgs c) (hasRet c) b (Key c)
    (ReturnsPageInfo c) (PaginationArgsIndex c).
Definition setHasArgs (b : bool) (c : connectionContext) : connectionContext :=
  mkConnectionContext b (hasRet c) (hasError c) (Key c)
    (ReturnsPageInfo c) (PaginationArgsIndex c).
Definition setKey (k : string) (c : connectionContext) : connectionContext :=
  mkConnectionContext (hasArgs c) (hasRet c) (hasError c) k
    (ReturnsPageInfo c) (PaginationArgsIndex c).

(** [consumePaginatedArgs]: the context as mutated, the remaining input
    types and the error (the parser and the argument type it also returns
    are not looked at by the code modelled here). *)
Definition consumePaginatedArgs (sb : Collaborators) (c : connectionContext)
  (ins : list GoType) : go (connectionContext * list GoType * option error) :=
  let c := setPaginationArgsIndex (-1) c in
  match ins with
  | in0 :: rest =>
      if negb (isSelectionSetType in0) then
        do i <- indexOfPaginationArgs in0;
        let c := setPaginationArgsIndex i c in
        if IsExternallyManaged c then
          match buildEmbeddedPaginatedArgParser sb in0 with
          | Some err => Returns (c, ins, Some err)
          | None => Returns (c, rest, None)
          end
        else
          match buildPaginatedArgParser sb (Some in0) with
          | Some err => Returns (c, ins, Some err)
          | None => Returns (c, rest, None)
          end
      else
        match buildPaginatedArgParser sb None with
        | Some err => Returns (c, ins, Some err)
        | None => Returns (c, ins, None)
        end
  | [] =>
      match buildPaginatedArgParser sb None with
      | Some err => Returns (c, ins, Some err)
      | None => Returns (c, ins, None)
      end
  end.

(** [parsePaginatedReturnSignature], over the result types [outs] of the
    resolver ([c.funcType.Out(i)]). *)
Definition parsePaginatedReturnSignature (c : connectionContext)
  (outs : list GoType) (MarkedNonNullable : bool)
  : connectionContext * option error :=
  let c := setReturnsPageInfo false c in
  let out := outs in
  let '(c, out) :=
    match out with
    | t :: rest => if negb (isErrType t) then (setHasRet true c, rest)
                   else (c, out)
    | [] => (c, out)
    end in
  let '(c, out) :=
    match out with
    | t :: rest => if isPaginationInfoType t
                   then (setReturnsPageInfo true c, rest)
                   else (c, out)
    | [] => (c, out)
    end in
  let '(c, out) :=
    match out with
    | t :: rest => if isErrType t then (setHasError true c, rest)
                   else (c, out)
    | [] => (c, out)
    end in
  if negb (len out =? 0) then
    (c, Some (Errorf "return values should [result][, error]"))
  else if negb (hasRet c) && MarkedNonNullable then
    (c, Some (Errorf "is marked non-nullable, but has no return value"))
  else (c, None).

(** [c.funcType.Out(0)] panics when the function has no result. *)
Definition Out0 (outs : list GoType) : go GoType :=
  match outs with
  | t :: _ => Returns t
  | [] => Panics "reflect: Func index out of bounds"
  end.

Definition Elem (t : GoType) : go GoType :=
  match t with
  | TSlice e => Returns e
  | _ => Panics "reflect: Elem of invalid type"
  end.

(** [buildPaginatedField], from the input types [ins] that
    [consumeContextAndSource] leaves and the result types [outs] of the
    resolver.  The field it builds closes over the context [c], which is what
    is returned for it. *)
Definition buildPaginatedField (sb : Collaborators) (ins outs : list GoType)
  : go (option connectionContext * option error) :=
  let c := newConnectionContext in
  match getFuncVal sb with
  | Some err => Returns (None, Some err)
  | None =>
      do r <- consumePaginatedArgs sb c ins;
      let '(c, ins, err) := r in
      match err with
      | Some err => Returns (None, Some err)
      | None =>
          let c := setHasArgs true c in
          let ins := consumeSelectionSet sb ins in
          if negb (len ins =? 0) then
            Returns (None, Some (Errorf "arguments should be [context][, [*]typ][, args][, selectionSet]"))
          else
            let '(c, err) := parsePaginatedReturnSignature c outs true in
            match err with
            | Some err => Returns (None, Some err)
            | None =>
                match Validate c with
                | Some err => Returns (None, Some err)
                | None =>
                    do out0 <- Out0 outs;
                    if negb (isSliceKind out0) then
                      Returns (None, Some (Errorf "paginated field func must return a slice type"))
                    else
                      do nodeType <- Elem out0;
                      match constructConnType sb c nodeType with
                      | Some err => Returns (None, Some err)
                      | None =>
                          let '(key, err) := getKeyFieldOnStruct sb nodeType in
                          let c := setKey key c in
                          match err with
                          | Some err => Returns (None, Some err)
                          | None => Returns (Some c, None)
                          end
                      end
                end
            end
      end
  end.

(** ** Data model *)

Section Pagination.

(** A node is an opaque application value ([interface{}] in the source). *)
Context {Node : Type}.

(** [keyText key node] is [fmt.Sprintf("%v", v.FieldByName(key).Interface())]
    for the (dereferenced) node: the display form of its key field. *)
Variable keyText : string -> Node -> string.

Record Edge : Type := mkEdge {
  Edge_Node : Node;
  Cursor : string
}.

Record PageInfo : Type := mkPageInfo {
  HasNextPage : bool;
  EndCursor : string;
  HasPrevPage : bool;
  StartCursor : string;
  Pages : list string
}.

Record Connection : Type := mkConnection {
  TotalCount : Z;
  Edges : list Edge;
  Conn_PageInfo : PageInfo
}.

(** [PageInfo{}] and [Connection{}]. *)
Definition zeroPageInfo : PageInfo := mkPageInfo false "" false "" [].
Definition zeroConnection : Connection := mkConnection 0 [] zeroPageInfo.

Record PaginationArgs : Type := mkPaginationArgs {
  First : option Z;
  Last : option Z;
  After : option string;
  Before : option string
}.

Record PaginationInfo : Type := mkPaginationInfo {
  TotalCountFunc : option (unit -> Z);
  Info_HasNextPage : bool;
  Info_HasPrevPage : bool
}.

Definition Limit (p : PaginationArgs) : Z :=
  match First p with
  | Some f => f
  | None =>
      match Last p with
      | Some l => l
      | None => 0
      end
  end.

Definition PaginationInfo_TotalCount (i : PaginationInfo) : Z :=
  match TotalCountFunc i with
  | None => 0
  | Some f => f tt
  end.

Definition safeInt64Ptr (i : option Z) : Z :=
  match i with
  | None => 0
  | Some v => v
  end.

(** Field updates of the mutable receiver. *)
Definition setHasNextPage (b : bool) (p : PageInfo) : PageInfo :=
  mkPageInfo b (EndCursor p) (HasPrevPage p) (StartCursor p) (Pages p).
Definition setHasPrevPage (b : bool) (p : PageInfo) : PageInfo :=
  mkPageInfo (HasNextPage p) (EndCursor p) b (StartCursor p) (Pages p).
Definition setEndCursor (s : string) (p : PageInfo) : PageInfo :=
  mkPageInfo (HasNextPage p) s (HasPrevPage p) (StartCursor p) (Pages p).
Definition setStartCursor (s : string) (p : PageInfo) : PageInfo :=
  mkPageInfo (HasNextPage p) (EndCursor p) (HasPrevPage p) s (Pages p).
Definition withEdges (es : list Edge) (c : Connection) : Connection :=
  mkConnection (TotalCount c) es (Conn_PageInfo c).
Definition withPageInfo (p : PageInfo) (c : Connection) : Connection :=
  mkConnection (TotalCount c) (Edges c) p.
Definition withTotalCount (n : Z) (c : Connection) : Connection :=
  mkConnection n (Edges c) (Conn_PageInfo c).

(** ** Windowing *)

(** The loop of [getCursorIndex], started at index [i]. *)
Fixpoint getCursorIndexFrom (i : Z) (edges : list Edge) (cursor : string) : Z :=
  match edges with
  | [] => -1
  | val :: rest =>
      if String.eqb (Cursor val) cursor then i
      else getCursorIndexFrom (i + 1) rest cursor
  end.

Definition getCursorIndex (edges : list Edge) (cursor : string) : Z :=
  getCursorIndexFrom 0 edges cursor.

(** [s[lo:]] and [s[:hi]] for bounds within the slice. *)
Definition sliceFrom {A : Type} (lo : Z) (s : list A) : list A :=
  skipn (Z.to_nat lo) s.
Definition sliceTo {A : Type} (hi : Z) (s : list A) : list A :=
  firstn (Z.to_nat hi) s.

(** The [after] block of [applyCursorsToAllEdges]: the edges and
    [elemsBefore] it leaves. *)
Definition applyAfter (edges : list Edge) (after : option string)
  : list Edge * bool :=
  match after with
  | None => (edges, false)
  | Some a =>
      let i := getCursorIndex edges a in
      if negb (i =? -1) then (sliceFrom (i + 1) edges, negb (i =? 0))
      else (edges, false)
  end.

(** The [before] block, with the [edgeCount] captured on entry. *)
Definition applyBefore (edgeCount : Z) (edges : list Edge)
  (before : option string) : list Edge * bool :=
  match before with
  | None => (edges, false)
  | Some b =>
      let i := getCursorIndex edges b in
      if negb (i =? -1) then (sliceTo i edges, negb (i =? edgeCount - 1))
      else (edges, false)
  end.

(** Returns [(edges, elemsAfter, elemsBefore)]. *)
Definition applyCursorsToAllEdges (edges : list Edge)
  (before after : option string) : list Edge * bool * bool :=
  let edgeCount := len edges in
  let '(edges1, elemsBefore) := applyAfter edges after in
  let '(edges2, elemsAfter) := applyBefore edgeCount edges1 before in
  (edges2, elemsAfter, elemsBefore).

Definition isSome {A : Type} (o : option A) : bool :=
  match o with
  | Some _ => true
  | None => false
  end.

(** [paginateManually] mutates its receiver and returns an error; the
    receiver is returned as it stands when the method returns. *)
Definition paginateManually (c : Connection) (args : PaginationArgs)
  : Connection * option error :=
  let '(edges, elemsAfter, elemsBefore) :=
    applyCursorsToAllEdges (Edges c) (Before args) (After args) in
  let c := withEdges edges c in
  let c := withPageInfo
             (setHasNextPage (isSome (Before args) && elemsAfter)
                (Conn_PageInfo c)) c in
  let c := withPageInfo
             (setHasPrevPage (isSome (After args) && elemsBefore)
                (Conn_PageInfo c)) c in
  if (safeInt64Ptr (First args) <? 0) || (safeInt64Ptr (Last args) <? 0) then
    (c, Some (ClientError "first/last cannot be a negative integer"))
  else if isSome (First args) && isSome (Last args) then
    (c, Some (ClientError "Cannot use both first and last together"))
  else
    let c :=
      match First args with
      | Some f =>
          if len (Edges c) >? f then
            withPageInfo (setHasNextPage true (Conn_PageInfo c))
              (withEdges (sliceTo f (Edges c)) c)
          else c
      | None => c
      end in
    let c :=
      match Last args with
      | Some l =>
          if len (Edges c) >? l then
            withPageInfo (setHasPrevPage true (Conn_PageInfo c))
              (withEdges (sliceFrom (len (Edges c) - l) (Edges c)) c)
          else c
      | None => c
      end in
    (c, None).

(** [setCursors]. *)
Definition setCursors (c : Connection) : Connection :=
  match Edges c with
  | [] => c
  | e0 :: _ =>
      let c := withPageInfo
                 (setEndCursor (Cursor (last (Edges c) e0)) (Conn_PageInfo c))
                 c in
      withPageInfo (setStartCursor (Cursor e0) (Conn_PageInfo c)) c
  end.

(** [externallySetPageInfo]. *)
Definition externallySetPageInfo (c : Connection) (info : PaginationInfo)
  : Connection :=
  let c := withPageInfo
             (setHasNextPage (Info_HasNextPage info) (Conn_PageInfo c)) c in
  let c := withPageInfo
             (setHasPrevPage (Info_HasPrevPage info) (Conn_PageInfo c)) c in
  withTotalCount (PaginationInfo_TotalCount info) c.

(** ** Edges and page markers *)

Definition getEdges (key : string) (nodes : list Node) : list Edge :=
  map (fun node => mkEdge node (Base64.EncodeToString (keyText key node)))
    nodes.

(** The body of the loop of [getPages] at index [i], over the slice of
    length [n], threading [pages]. *)
Definition getPagesStep (n limit : Z) (i : Z) (edge : Edge)
  (pages : list string) : list string :=
  let pages := if i =? 0 then pages ++ [""] else pages in
  if limit =? 0 then pages
  else if i =? n - 1 then pages
  else if Z.rem (i + 1) limit =? 0 then pages ++ [Cursor edge]
  else pages.

Fixpoint getPagesLoop (n limit : Z) (i : Z) (edges : list Edge)
  (pages : list string) : list string :=
  match edges with
  | [] => pages
  | edge :: rest =>
      getPagesLoop n limit (i + 1) rest (getPagesStep n limit i edge pages)
  end.

Definition getPages (edges : list Edge) (limit : Z) : list string :=
  getPagesLoop (len edges) limit 0 edges [].

(** ** Connection assembly *)

(** A [reflect.Value] among the results of the resolver call ([out]).  A
    slice value is [None] when the slice is nil. *)
Inductive Value : Type :=
| VSlice (elems : option (list Node))
| VPaginationInfo (info : PaginationInfo)
| VError (err : option error)
| VOther.                                (* of some other, non-nillable kind *)

(** [out[i]]. *)
Definition index (out : list Value) (i : Z) : go Value :=
  if i <? 0 then Panics "index out of range"
  else match nth_error out (Z.to_nat i) with
       | Some v => Returns v
       | None => Panics "index out of range"
       end.

(** [castSlice(v.Interface())]. *)
Definition castSlice (v : Value) : go (list Node) :=
  match v with
  | VSlice (Some elems) => Returns elems
  | VSlice None => Returns []
  | _ => Panics "cast given a non-slice type"
  end.

(** [v.Interface().(PaginationInfo)]. *)
Definition asPaginationInfo (v : Value) : go PaginationInfo :=
  match v with
  | VPaginationInfo info => Returns info
  | _ => Panics "interface conversion: not a PaginationInfo"
  end.

(** [v.IsNil()]. *)
Definition IsNil (v : Value) : go bool :=
  match v with
  | VSlice None => Returns true
  | VSlice (Some _) => Returns false
  | VError None => Returns true
  | VError (Some _) => Returns false
  | _ => Panics "reflect: call of reflect.Value.IsNil on a non-nillable value"
  end.

(** [v.Interface().(error)]. *)
Definition asError (v : Value) : go error :=
  match v with
  | VError (Some e) => Returns e
  | _ => Panics "interface conversion: not an error"
  end.

Definition getConnection (c : connectionContext) (out : list Value)
  (args : PaginationArgs) : go (Connection * option error) :=
  do v0 <- index out 0;
  do nodes <- castSlice v0;
  if len nodes =? 0 then Returns (zeroConnection, None)
  else
    let limit := Limit args in
    let edges := getEdges (Key c) nodes in
    let pages := getPages edges limit in
    let connection :=
      mkConnection (len nodes) edges (mkPageInfo false "" false "" pages) in
    let '(connection, err) := paginateManually connection args in
    match err with
    | Some err => Returns (zeroConnection, Some err)
    | None =>
        let connection := setCursors connection in
        if IsExternallyManaged c then
          do v1 <- index out 1;
          do info <- asPaginationInfo v1;
          Returns (externallySetPageInfo connection info, None)
        else Returns (connection, None)
    end.

(** The arguments handed to the wrapped field: a [ConnectionArgs] value in
    framework-managed mode, the user's struct (with its fields) in
    externally-managed mode. *)
Context {UserArgs : Type}.

Record ConnectionArgs : Type := mkConnectionArgs {
  CA_First : option Z;
  CA_Last : option Z;
  CA_After : option string;
  CA_Before : option string;
  CA_Args : option UserArgs
}.

Inductive FieldValue : Type :=
| FPaginationArgs (p : PaginationArgs)
| FOther.

Inductive ArgsValue : Type :=
| AConnectionArgs (ca : ConnectionArgs)
| AStruct (fields : list FieldValue)
| ANotStruct.

(** [reflect.ValueOf(args).Field(i).Interface().(PaginationArgs)]. *)
Definition embeddedPaginationArgs (args : ArgsValue) (i : Z)
  : go PaginationArgs :=
  match args with
  | AStruct fields =>
      if i <? 0 then Panics "reflect: Field index out of range"
      else match nth_error fields (Z.to_nat i) with
           | Some (FPaginationArgs p) => Returns p
           | Some FOther => Panics "interface conversion: not a PaginationArgs"
           | None => Panics "reflect: Field index out of range"
           end
  | AConnectionArgs _ =>
      (* ConnectionArgs is a struct whose fields are pointers and an interface *)
      if (0 <=? i) && (i <? 5)
      then Panics "interface conversion: not a PaginationArgs"
      else Panics "reflect: Field index out of range"
  | ANotStruct => Panics "reflect: call of reflect.Value.Field on a non-struct"
  end.

(** The first block of [extractPaginatedRetAndErr]: the [paginationArgs] of
    the request.  [args.(ConnectionArgs)] with the comma-ok form yields the
    zero [ConnectionArgs] when [args] is something else. *)
Definition requestPaginationArgs (c : connectionContext) (args : ArgsValue)
  : go PaginationArgs :=
  if negb (IsExternallyManaged c) then
    match args with
    | AConnectionArgs connectionArgs =>
        Returns (mkPaginationArgs (CA_First connectionArgs)
                   (CA_Last connectionArgs) (CA_After connectionArgs)
                   (CA_Before connectionArgs))
    | _ => Returns (mkPaginationArgs None None None None)
    end
  else embeddedPaginationArgs args (PaginationArgsIndex c).

(** Results: [(interface{}, error)]; the first is [None] for [nil]. *)
Definition extractPaginatedRetAndErr (c : connectionContext)
  (out : list Value) (args : ArgsValue)
  : go (option Connection * option error) :=
  do paginationArgs <- requestPaginationArgs c args;
  do r <- getConnection c out paginationArgs;
  let '(result, err) := r in
  match err with
  | Some err => Returns (None, Some err)
  | None =>
      if hasError c then
        do err <- index out (len out - 1);
        do isNil <- IsNil err;
        if negb isNil then
          do e <- asError err;
          Returns (None, Some e)
        else Returns (Some result, None)
      else Returns (Some result, None)
  end.

End Pagination.

Arguments Edge Node : clear implicits.
Arguments Connection Node : clear implicits.
Arguments Value Node : clear implicits.
Arguments ConnectionArgs UserArgs : clear implicits.
Arguments ArgsValue UserArgs : clear implicits.

(** ** The post-[after] edge set *)

(** The edges [applyCursorsToAllEdges] searches [before] in: the slice as the
    [after] block leaves it. *)
Definition afterCut {Node : Type} (edges : list (Edge Node))
  (after : option string) : list (Edge Node) :=
  fst (applyAfter edges after).

(** ** Bytes *)

(** The values [Base64.bytes] produces. *)
Definition isByte (n : nat) : Prop := (n < 256)%nat.

(** ** The two markers of an externally-managed resolver, on its signature *)



(** The argument type embeds [PaginationArgs]. *)
Definition embedsInSignature (ins : list GoType) : bool :=
  match ins with
  | TStruct _ fields :: _ => existsb isPaginationArgsType fields
  | _ => false
  end.

(** The return signature includes [PaginationInfo]. *)
Definition returnsInfoInSignature (outs : list GoType) : bool :=
  existsb isPaginationInfoType outs.

(** ** The cursors of a page *)

(** Those of its first and of its last edge; blank when the page has no
    edge. *)
Definition cursorsOfPage {Node : Type} (connection : Connection Node) : Prop :=
  match Edges connection with
  | [] => StartCursor (Conn_PageInfo connection) = "" /\
          EndCursor (Conn_PageInfo connection) = ""
  | e0 :: es =>
      StartCursor (Conn_PageInfo connection) = Cursor e0 /\
      EndCursor (Conn_PageInfo connection) = Cursor (last es e0)
  end.

(** ** Return signatures, as the binder's comment words them *)

(** "[result][, PaginationInfo][, error]": an optional leading result that
    is not an error, an optional [PaginationInfo] (only after a result), an
    optional trailing error; a non-nullable field must have the result. *)
Definition acceptedReturns (outs : list GoType) (nonNullable : bool) : bool :=
  match outs with
  | [] => negb nonNullable
  | [t] => negb (isErrType t) || negb nonNullable
  | [t; u] => negb (isErrType t) && (isPaginationInfoType u || isErrType u)
  | [t; u; v] =>
      negb (isErrType t) && isPaginationInfoType u && isErrType v
  | _ => false
  end.

(** ** Values of the types a resolver declares *)






(** ** Requests the windowing rejects *)

(** Negative [first], negative [last], or both [first] and [last] set. *)
Definition rejected (args : PaginationArgs) : Prop :=
  (exists f, First args = Some f /\ f < 0) \/
  (exists l, Last args = Some l /\ l < 0) \/
  (First args <> None /\ Last args <> None).

(** ** The page markers as the specification words them *)

(** Edge [i] of [n] closes a page of size [limit]. *)
Definition isBoundary (n limit i : Z) : bool :=
  negb (limit =? 0) && negb (i =? n - 1) && (Z.rem (i + 1) limit =? 0).

(** The edges paired with their indices [k], [k+1], ... *)
Fixpoint indexedFrom {A : Type} (k : Z) (l : list A) : list (Z * A) :=
  match l with
  | [] => []
  | x :: rest => (k, x) :: indexedFrom (k + 1) rest
  end.

(** Cursors of the boundary edges among [edges], numbered from [k], of a
    list of [n] edges, in order. *)
Definition boundariesFrom {Node : Type} (n limit k : Z)
  (edges : list (Edge Node)) : list string :=
  map (fun p => Cursor (snd p))
    (filter (fun p => isBoundary n limit (fst p)) (indexedFrom k edges)).

Definition pageBoundaries {Node : Type} (edges : list (Edge Node))
  (limit : Z) : list string :=
  boundariesFrom (len edges) limit 0 edges.

(** ** The test fixture: items keyed by an [int64] [Id] *)

(** [fmt.Sprintf("%v", id)] for an integer key. *)
Definition itemKeyText (key : string) (id : Z) : string :=
  NilZero.string_of_int (Z.to_int id).

Definition items5 : list Z := [1; 2; 3; 4; 5].

Definition edges5 : list (Edge Z) := getEdges itemKeyText "Id" items5.


(** A framework-managed context and an externally-managed one, as
    [buildPaginatedField] leaves them for [func(args Args) []Item] and for
    [func(args EmbeddedArgs) ([]Item, PaginationInfo, error)]. *)
Definition managedCtx : connectionContext :=
  mkConnectionContext true true false "Id" false (-1).
Definition externalCtx : connectionContext :=
  mkConnectionContext true true true "Id" true 0.

Definition info5 : PaginationInfo :=
  mkPaginationInfo (Some (fun _ => 5)) true false.

(** Collaborators that report no error; [consumeSelectionSet] drops a
    leading selection set. *)
Definition agreeable : Collaborators :=
  mkCollaborators None (fun _ => None) (fun _ => None)
    (fun ins => match ins with
                | TSelectionSet :: rest => rest
                | _ => ins
                end)
    (fun _ _ => None) (fun _ => ("Id", None)).

Definition EmbeddedArgs : GoType :=
  TStruct "EmbeddedArgs" [TPaginationArgs; TScalar "string"].
Definition Args : GoType := TStruct "Args" [TScalar "string"].
Definition Item : GoType := TStruct "Item" [TScalar "int64"].

(** The connection [getConnection] builds over the five items before it
    windows them, for a request without [first] or [last]. *)
Definition conn5 : Connection Z :=
  mkConnection 5 edges5 (mkPageInfo false "" false "" [""]).

Definition first2 : PaginationArgs := mkPaginationArgs (Some 2) None None None.
Definition last2 : PaginationArgs := mkPaginationArgs None (Some 2) None None.
Definition first1AfterBlank : PaginationArgs :=
  mkPaginationArgs (Some 1) None (Some "") None.

Definition outsExternal : list GoType := [TSlice Item; TPaginationInfo; TError].

(** A framework-managed context for a resolver that also returns an
    error, its results, and the arguments of the request
    [first: 1, after: ""]. *)
Definition managedErrCtx : connectionContext :=
  mkConnectionContext true true true "Id" false (-1).
Definition outNilWithError : list (Value Z) :=
  [VSlice None; VError (Some (ResolverError "this is an error"))].
Definition requestFirst1 : ArgsValue unit :=
  AConnectionArgs (mkConnectionArgs (Some 1) None (Some "") None (Some tt)).

(** * Properties *)

(** ** Cursor lookup *)

Section CursorLookup.

Context {Node : Type}.
Implicit Types (edges : list (Edge Node)) (cursor : string).

Lemma len_cons : forall (A : Type) (x : A) (l : list A),
  len (x :: l) = 1 + len l.
Proof. intros. unfold len. cbn [List.length]. lia. Qed.

Lemma len_nonneg : forall (A : Type) (l : list A), 0 <= len l.
Proof. intros. unfold len. lia. Qed.

Lemma getCursorIndexFrom_shift : forall edges cursor i,
  (getCursorIndexFrom i edges cursor = -1 /\
   getCursorIndexFrom 0 edges cursor = -1) \/
  (0 <= getCursorIndexFrom 0 edges cursor < len edges /\
   getCursorIndexFrom i edges cursor
   = i + getCursorIndexFrom 0 edges cursor).
Proof.
  induction edges as [|e rest IH]; intros cursor i;
    cbn [getCursorIndexFrom].
  - now left.
  - rewrite len_cons. pose proof (len_nonneg _ rest) as Hlen.
    destruct (String.eqb (Cursor e) cursor).
    + right. lia.
    + destruct (IH cursor (i + 1)) as [[H H'] | [Hr Hs]];
        destruct (IH cursor (0 + 1)) as [[H0 H0'] | [Hr0 Hs0]];
        [left | right | right | right]; lia.
Qed.

(** A lookup either misses ([-1]) or lands inside the slice. *)
Lemma getCursorIndex_range : forall edges cursor,
  getCursorIndex edges cursor = -1 \/
  0 <= getCursorIndex edges cursor < len edges.
Proof.
  intros edges cursor. unfold getCursorIndex.
  destruct (getCursorIndexFrom_shift edges cursor 0) as [[H _] | [H _]];
    [now left | now right].
Qed.

Lemma getCursorIndexFrom_miss : forall edges cursor i,
  0 <= i ->
  (getCursorIndexFrom i edges cursor = -1 <->
   forall e, In e edges -> Cursor e <> cursor).
Proof.
  induction edges as [|e rest IH]; intros cursor i Hi;
    cbn [getCursorIndexFrom].
  - split; [intros _ e [] | reflexivity].
  - destruct (String.eqb_spec (Cursor e) cursor) as [Heq | Hne].
    + split; [lia | intros H; exfalso; exact (H e (or_introl eq_refl) Heq)].
    + rewrite (IH cursor (i + 1)) by lia. split.
      * intros H e' [<- | Hin]; [exact Hne | exact (H e' Hin)].
      * intros H e' Hin. apply H. now right.
Qed.

(** [-1] is returned exactly when no edge carries the cursor. *)
Lemma getCursorIndex_miss : forall edges cursor,
  getCursorIndex edges cursor = -1 <->
  forall e, In e edges -> Cursor e <> cursor.
Proof.
  intros. unfold getCursorIndex. apply getCursorIndexFrom_miss. lia.
Qed.

(** The post-[after] edge set is what the function itself returns when no
    [before] is given. *)
Lemma afterCut_is_after_only : forall edges after,
  afterCut edges after = fst (fst (applyCursorsToAllEdges edges None after)).
Proof.
  intros edges after. unfold afterCut, applyCursorsToAllEdges.
  destruct (applyAfter edges after) as [edges1 elemsBefore]. reflexivity.
Qed.

End CursorLookup.

(** ** Windowing by cursors *)

Section Windowing.

Context {Node : Type}.
Implicit Types (edges : list (Edge Node)) (before after : option string).

(** C1.  [applyCursorsToAllEdges] reports [elemsAfter = true] exactly when
    [before] is supplied and found, at index [i] of the edge set left by the
    [after]-cut, with [i] different from the length of the edge list on
    entry (before that cut) minus one. *)
Theorem applyCursors_elemsAfter_against_entry_length :
  forall edges before after,
    snd (fst (applyCursorsToAllEdges edges before after)) = true <->
    exists b i,
      before = Some b /\
      getCursorIndex (afterCut edges after) b = i /\
      i <> -1 /\ i <> len edges - 1.
Proof.
  intros edges before after.
  unfold applyCursorsToAllEdges, afterCut.
  destruct (applyAfter edges after) as [edges1 elemsBefore].
  unfold applyBefore. cbn [fst snd].
  destruct before as [b|]; cbn [fst snd].
  - destruct (Z.eqb_spec (getCursorIndex edges1 b) (-1)) as [Hm | Hf];
      cbn [negb fst snd].
    + split; [discriminate|]. intros (b' & i & Hb & Hi & Hne & _).
      injection Hb as <-. congruence.
    + destruct (Z.eqb_spec (getCursorIndex edges1 b) (len edges - 1))
        as [Hl | Hl]; cbn [negb].
      * split; [discriminate|]. intros (b' & i & Hb & Hi & _ & Hne).
        injection Hb as <-. congruence.
      * split; [|reflexivity]. intros _.
        exists b, (getCursorIndex edges1 b). auto.
  - split; [discriminate|]. intros (b & i & Hb & _). discriminate.
Qed.

(** The comparison really is against the entry length: with [after] cutting
    the first of five edges, a [before] on the very last edge still reports
    elements after it. *)
Example applyCursors_before_last_after_first :
  applyCursorsToAllEdges edges5 (Some "NQ==") (Some "MQ==")
  = ([mkEdge 2 "Mg=="; mkEdge 3 "Mw=="; mkEdge 4 "NA=="], true, false).
Proof. reflexivity. Qed.

(** C7.  A cursor that matches no edge of the set it is searched in changes
    nothing on its side: an [after] that misses gives the result of the call
    without [after], a [before] that misses (in the post-[after] set) gives
    the result of the call without [before]; the flag of that side stays
    false.  The function has no error result. *)
Theorem applyCursors_missing_cursor_noop :
  forall edges before after,
    (forall a, after = Some a -> getCursorIndex edges a = -1 ->
       applyCursorsToAllEdges edges before after
       = applyCursorsToAllEdges edges before None /\
       snd (applyCursorsToAllEdges edges before after) = false) /\
    (forall b, before = Some b ->
       getCursorIndex (afterCut edges after) b = -1 ->
       applyCursorsToAllEdges edges before after
       = applyCursorsToAllEdges edges None after /\
       fst (fst (applyCursorsToAllEdges edges before after))
       = afterCut edges after /\
       snd (fst (applyCursorsToAllEdges edges before after)) = false).
Proof.
  intros edges before after. split.
  - intros a -> Hmiss.
    unfold applyCursorsToAllEdges, applyAfter.
    rewrite Hmiss. change (negb (-1 =? -1)) with false. cbv iota.
    destruct (applyBefore (len edges) edges before) as [edges2 elemsAfter].
    split; reflexivity.
  - intros b -> Hmiss.
    unfold afterCut in *. unfold applyCursorsToAllEdges.
    destruct (applyAfter edges after) as [edges1 elemsBefore].
    cbn [fst] in Hmiss. unfold applyBefore. rewrite Hmiss.
    change (negb (-1 =? -1)) with false. cbv iota.
    repeat split; reflexivity.
Qed.

(** When both cursors miss, the edges come back untouched. *)
Corollary applyCursors_both_missing : forall edges a b,
  getCursorIndex edges a = -1 -> getCursorIndex edges b = -1 ->
  applyCursorsToAllEdges edges (Some b) (Some a) = (edges, false, false).
Proof.
  intros edges a b Ha Hb.
  unfold applyCursorsToAllEdges, applyAfter, applyBefore.
  rewrite Ha. change (negb (-1 =? -1)) with false. cbv iota.
  rewrite Hb. reflexivity.
Qed.

End Windowing.

(** ** [paginateManually] *)

Section PaginateManually.

Context {Node : Type}.
Implicit Types (c : Connection Node) (args : PaginationArgs).

Lemma rejected_dec : forall args, rejected args \/ ~ rejected args.
Proof.
  intros [[f|] [l|] a b]; unfold rejected; cbn [First Last].
  - left. right. right. split; discriminate.
  - destruct (Z.lt_ge_cases f 0) as [H | H].
    + left. left. eauto.
    + right. intros [(f' & [= <-] & H') | [(l & [=] & _) | [_ H']]];
        [lia | now apply H'].
  - destruct (Z.lt_ge_cases l 0) as [H | H].
    + left. right. left. eauto.
    + right. intros [(f & [=] & _) | [(l' & [= <-] & H') | [H' _]]];
        [lia | now apply H'].
  - right. intros [(f & [=] & _) | [(l & [=] & _) | [H' _]]]. now apply H'.
Qed.

(** The guards of [paginateManually], read off its two [if]s. *)
Lemma paginateManually_guards : forall args,
  ((safeInt64Ptr (First args) <? 0) || (safeInt64Ptr (Last args) <? 0)
   || (isSome (First args) && isSome (Last args))) = true <-> rejected args.
Proof.
  intros [[f|] [l|] a b]; unfold rejected;
    cbn [First Last safeInt64Ptr isSome andb].
  - rewrite orb_true_r. split; [intros _ | reflexivity].
    right. right. split; discriminate.
  - rewrite orb_false_r, Z.ltb_irrefl, orb_false_r, Z.ltb_lt. split.
    + intros H. left. eauto.
    + intros [(f' & [= <-] & H) | [(l & [=] & _) | [_ H]]];
        [exact H | now contradiction H].
  - rewrite orb_false_r, Z.ltb_irrefl, orb_false_l, Z.ltb_lt. split.
    + intros H. right. left. eauto.
    + intros [(f & [=] & _) | [(l' & [= <-] & H) | [H _]]];
        [exact H | now contradiction H].
  - cbn. split; [discriminate|].
    intros [(f & [=] & _) | [(l & [=] & _) | [H _]]]. now contradiction H.
Qed.

Lemma paginateManually_error_cases : forall c args,
  (rejected args /\
   exists msg, snd (paginateManually c args) = Some (ClientError msg)) \/
  (~ rejected args /\ snd (paginateManually c args) = None).
Proof.
  intros c args. pose proof (paginateManually_guards args) as G.
  unfold paginateManually.
  destruct (applyCursorsToAllEdges (Edges c) (Before args) (After args))
    as [[edges elemsAfter] elemsBefore].
  destruct ((safeInt64Ptr (First args) <? 0) || (safeInt64Ptr (Last args) <? 0))
    eqn:Hneg.
  - left. split; [apply G; reflexivity | eexists; reflexivity].
  - cbn [orb] in G.
    destruct (isSome (First args) && isSome (Last args)) eqn:Hboth.
    + left. split; [apply G; reflexivity | eexists; reflexivity].
    + right. split; [intros H; apply G in H; discriminate | reflexivity].
Qed.

(** C4.  [paginateManually] returns a client error exactly when [first] is
    negative, [last] is negative, or both are set; in every other case its
    error result is nil. *)
Theorem paginateManually_client_error_iff : forall c args,
  ((exists msg, snd (paginateManually c args) = Some (ClientError msg))
   <-> rejected args) /\
  (snd (paginateManually c args) = None <-> ~ rejected args).
Proof.
  intros c args.
  destruct (paginateManually_error_cases c args)
    as [[Hr [msg He]] | [Hr He]]; rewrite He; split; split; intros H.
  - exact Hr.
  - now exists msg.
  - discriminate.
  - contradiction.
  - destruct H as [msg' H]. discriminate.
  - contradiction.
  - exact Hr.
  - reflexivity.
Qed.

(** C3.  With valid counts, a window longer than [first = n] is cut to its
    first [n] edges and [HasNextPage] is forced; a window longer than
    [last = n] is cut to its last [n] edges and [HasPrevPage] is forced.  The
    window is the edge list after cursor application. *)
Theorem paginateManually_truncates : forall c args n,
  0 <= n ->
  n < len (fst (fst (applyCursorsToAllEdges
                       (Edges c) (Before args) (After args)))) ->
  let window :=
    fst (fst (applyCursorsToAllEdges (Edges c) (Before args) (After args))) in
  let r := paginateManually c args in
  (First args = Some n -> Last args = None ->
     snd r = None /\
     Edges (fst r) = firstn (Z.to_nat n) window /\
     (exists dropped, window = Edges (fst r) ++ dropped) /\
     len (Edges (fst r)) = n /\
     HasNextPage (Conn_PageInfo (fst r)) = true) /\
  (Last args = Some n -> First args = None ->
     snd r = None /\
     Edges (fst r) = skipn (List.length window - Z.to_nat n) window /\
     (exists dropped, window = dropped ++ Edges (fst r)) /\
     len (Edges (fst r)) = n /\
     HasPrevPage (Conn_PageInfo (fst r)) = true).
Proof.
  intros c args n Hn Hlen window r. subst window r.
  unfold paginateManually.
  destruct (applyCursorsToAllEdges (Edges c) (Before args) (After args))
    as [[edges elemsAfter] elemsBefore].
  cbn [fst snd] in *.
  assert (Hgt : (len edges >? n) = true) by (apply Z.gtb_lt; exact Hlen).
  assert (Hnn : (n <? 0) = false) by (apply Z.ltb_ge; exact Hn).
  unfold len in Hlen.
  split; intros H1 H2; rewrite H1, H2;
    cbn [safeInt64Ptr isSome andb orb Z.ltb Z.compare];
    rewrite Hnn; cbn [orb withEdges withPageInfo Edges Conn_PageInfo
                        TotalCount]; rewrite Hgt;
    cbn [fst snd withEdges withPageInfo Edges Conn_PageInfo TotalCount
           setHasNextPage setHasPrevPage HasNextPage HasPrevPage].
  - unfold sliceTo. repeat split.
    + exists (skipn (Z.to_nat n) edges). now rewrite firstn_skipn.
    + unfold len. rewrite length_firstn. lia.
  - unfold sliceFrom, len.
    replace (Z.to_nat (Z.of_nat (List.length edges) - n))
      with (List.length edges - Z.to_nat n)%nat by lia.
    repeat split.
    + exists (firstn (List.length edges - Z.to_nat n) edges).
      now rewrite firstn_skipn.
    + rewrite length_skipn. lia.
Qed.

End PaginateManually.

(** ** Page markers *)

Section PageMarkers.

Context {Node : Type}.
Implicit Types (edges : list (Edge Node)) (pages : list string).

Lemma getPagesStep_boundary : forall n limit i (edge : Edge Node) pages,
  getPagesStep n limit i edge pages
  = (pages ++ (if i =? 0 then [""] else []))
    ++ (if isBoundary n limit i then [Cursor edge] else []).
Proof.
  intros n limit i edge pages. unfold getPagesStep, isBoundary.
  assert (E : (if i =? 0 then pages ++ [""] else pages)
              = pages ++ (if i =? 0 then [""] else [])).
  { destruct (i =? 0); [reflexivity | now rewrite app_nil_r]. }
  rewrite E.
  destruct (limit =? 0); cbn [negb andb]; [now rewrite app_nil_r|].
  destruct (i =? n - 1); cbn [negb andb]; [now rewrite app_nil_r|].
  destruct (Z.rem (i + 1) limit =? 0); [reflexivity | now rewrite app_nil_r].
Qed.

(** Past the first edge the loop only appends boundary cursors. *)
Lemma getPagesLoop_boundaries : forall edges n limit k pages,
  0 < k ->
  getPagesLoop n limit k edges pages = pages ++ boundariesFrom n limit k edges.
Proof.
  induction edges as [|e rest IH]; intros n limit k pages Hk.
  - cbn. now rewrite app_nil_r.
  - cbn [getPagesLoop]. rewrite IH by lia. rewrite getPagesStep_boundary.
    replace (k =? 0) with false by (symmetry; apply Z.eqb_neq; lia).
    rewrite app_nil_r. unfold boundariesFrom.
    cbn [indexedFrom filter fst].
    destruct (isBoundary n limit k); cbn [map snd app].
    + now rewrite <- app_assoc.
    + now rewrite app_nil_r.
Qed.

Lemma getPages_nonempty_eq : forall edges limit,
  edges <> [] -> getPages edges limit = "" :: pageBoundaries edges limit.
Proof.
  intros [|e rest] limit Hne; [contradiction|].
  unfold getPages, pageBoundaries.
  cbn [getPagesLoop]. rewrite getPagesLoop_boundaries by lia.
  rewrite getPagesStep_boundary. unfold boundariesFrom.
  cbn [indexedFrom filter fst Z.eqb app].
  destruct (isBoundary (len (e :: rest)) limit 0); reflexivity.
Qed.

(** No edges, no pages: not even the blank cursor. *)
Lemma getPages_nil : forall limit, getPages (@nil (Edge Node)) limit = [].
Proof. reflexivity. Qed.

(** C8, as amended: for every non-empty edge list and every limit, [getPages]
    returns the blank cursor followed by the cursors, in order, of the edges
    at the 0-based indices [i] with [limit <> 0], [i] not the last index and
    [(i+1) % limit = 0]; a limit of 2 over five edges gives the blank cursor
    and the cursors of the second and the fourth edge. *)
Theorem getPages_blank_then_boundaries : forall edges limit,
  edges <> [] ->
  getPages edges limit = "" :: pageBoundaries edges limit /\
  hd_error (getPages edges limit) = Some "" /\
  (forall e1 e2 e3 e4 e5 : Edge Node,
     getPages [e1; e2; e3; e4; e5] 2 = [""; Cursor e2; Cursor e4]).
Proof.
  intros edges limit Hne. rewrite (getPages_nonempty_eq edges limit Hne).
  repeat split.
Qed.

End PageMarkers.

(** ** Connection assembly *)

Section Assembly.

Context {Node : Type} (keyText : string -> Node -> string).
Implicit Types (c : connectionContext) (args : PaginationArgs)
  (nodes : list Node) (rest out : list (Value Node)).

Lemma len_zero_nil : forall (A : Type) (l : list A),
  (len l =? 0) = true <-> l = [].
Proof.
  intros A [|x l]; split; intros H; try reflexivity; discriminate.
Qed.

(** [getConnection] on a non-empty node list, with the connection it hands
    to [paginateManually] spelled out. *)
Lemma getConnection_nonempty : forall c nodes rest args,
  nodes <> [] ->
  getConnection keyText c (VSlice (Some nodes) :: rest) args
  = let edges := getEdges keyText (Key c) nodes in
    let connection :=
      mkConnection (len nodes) edges
        (mkPageInfo false "" false "" (getPages edges (Limit args))) in
    match snd (paginateManually connection args) with
    | Some err => Returns (zeroConnection, Some err)
    | None =>
        let connection := setCursors (fst (paginateManually connection args)) in
        if IsExternallyManaged c then
          do v1 <- index (VSlice (Some nodes) :: rest) 1;
          do info <- asPaginationInfo v1;
          Returns (externallySetPageInfo connection info, None)
        else Returns (connection, None)
    end.
Proof.
  intros c nodes rest args Hne. unfold getConnection.
  cbn [index Z.ltb Z.compare Z.to_nat nth_error go_bind castSlice].
  destruct (len nodes =? 0) eqn:E.
  - apply len_zero_nil in E. contradiction.
  - cbv zeta.
    destruct (paginateManually _ args) as [connection err]. reflexivity.
Qed.

(** C5.  An empty node list, nil or not, gives the empty Connection and no
    error for every context and every PaginationArgs: neither the windowing
    nor its validations run. *)
Theorem getConnection_empty_nodes : forall c rest args,
  getConnection keyText c (VSlice None :: rest) args
  = Returns (zeroConnection, None) /\
  getConnection keyText c (VSlice (Some []) :: rest) args
  = Returns (zeroConnection, None).
Proof. intros c rest args. split; reflexivity. Qed.


(** What [getConnection] does for an externally-managed field on a request
    that is not rejected: the edges are those [paginateManually] leaves, the
    two flags and the total count are the resolver's. *)
Lemma getConnection_externally_managed : forall c nodes info rest args,
  IsExternallyManaged c = true ->
  nodes <> [] ->
  ~ rejected args ->
  exists connection,
    getConnection keyText c
      (VSlice (Some nodes) :: VPaginationInfo info :: rest) args
    = Returns (connection, None) /\
    Edges connection
    = Edges (fst (paginateManually
                    (mkConnection (len nodes) (getEdges keyText (Key c) nodes)
                       (mkPageInfo false "" false ""
                          (getPages (getEdges keyText (Key c) nodes)
                             (Limit args))))
                    args)) /\
    HasNextPage (Conn_PageInfo connection) = Info_HasNextPage info /\
    HasPrevPage (Conn_PageInfo connection) = Info_HasPrevPage info /\
    TotalCount connection = PaginationInfo_TotalCount info.
Proof.
  intros c nodes info rest args Hext Hne Hnr.
  rewrite (getConnection_nonempty c nodes _ args Hne). cbv zeta.
  match goal with
  | |- context [paginateManually ?conn args] =>
      destruct (paginateManually_error_cases conn args)
        as [[Hr _] | [_ He]]; [contradiction|];
      rewrite He, Hext;
      destruct (paginateManually conn args) as [connection err]
  end.
  cbn [index Z.ltb Z.compare Z.to_nat nth_error go_bind asPaginationInfo fst].
  eexists. split; [reflexivity|].
  unfold externallySetPageInfo, setCursors.
  destruct (Edges connection) as [|e0 es] eqn:E; cbn; rewrite ?E; auto.
Qed.

End Assembly.

(** ** Resolver errors *)

Section ResolverErrors.

Context {Node UserArgs : Type} (keyText : string -> Node -> string).
Implicit Types (c : connectionContext) (out : list (Value Node))
  (args : ArgsValue UserArgs).

(** C6.  Once the connection is assembled without error, a non-nil error in
    the last result of the resolver is returned as it is, with a nil result
    in place of the connection.  The resolver's error is looked at only after
    the assembly: when the assembly itself reports an error, that error is
    the one returned, whatever the resolver's last result holds. *)
Theorem extractPaginatedRetAndErr_resolver_error :
  forall c out args paginationArgs,
    requestPaginationArgs c args = Returns paginationArgs ->
    (forall connection e,
       getConnection keyText c out paginationArgs
       = Returns (connection, None) ->
       hasError c = true ->
       index out (len out - 1) = Returns (VError (Some e)) ->
       extractPaginatedRetAndErr keyText c out args
       = Returns (None, Some e)) /\
    (forall connection e',
       getConnection keyText c out paginationArgs
       = Returns (connection, Some e') ->
       extractPaginatedRetAndErr keyText c out args
       = Returns (None, Some e')).
Proof.
  intros c out args paginationArgs Hargs.
  unfold extractPaginatedRetAndErr. rewrite Hargs. cbn [go_bind].
  split.
  - intros connection e Hconn Herr Hlast.
    rewrite Hconn. cbn [go_bind]. rewrite Herr, Hlast. reflexivity.
  - intros connection e' Hconn. rewrite Hconn. reflexivity.
Qed.

(** Without an error from either side the connection itself is returned. *)
Lemma extractPaginatedRetAndErr_no_error :
  forall c out args paginationArgs connection,
    requestPaginationArgs c args = Returns paginationArgs ->
    getConnection keyText c out paginationArgs = Returns (connection, None) ->
    (hasError c = false \/ index out (len out - 1) = Returns (VError None)) ->
    extractPaginatedRetAndErr keyText c out args
    = Returns (Some connection, None).
Proof.
  intros c out args paginationArgs connection Hargs Hconn Hlast.
  unfold extractPaginatedRetAndErr. rewrite Hargs. cbn [go_bind].
  rewrite Hconn. cbn [go_bind].
  destruct Hlast as [-> | Hlast]; [reflexivity|].
  rewrite Hlast. destruct (hasError c); reflexivity.
Qed.

End ResolverErrors.

(** The resolver of [innerConnectionWithError] returns a nil slice and an
    error: the empty connection is assembled first, then the error wins. *)
Example extract_nil_slice_with_error :
  extractPaginatedRetAndErr (UserArgs := unit) itemKeyText
    (mkConnectionContext true true true "Id" false (-1))
    [VSlice None; VError (Some (ResolverError "this is an error"))]
    (AConnectionArgs
       (mkConnectionArgs (Some 1) None (Some "") None (Some tt)))
  = Returns (None, Some (ResolverError "this is an error")).
Proof. reflexivity. Qed.

(** A rejected request on a non-empty list hides the resolver's own error. *)
Example extract_client_error_before_resolver_error :
  extractPaginatedRetAndErr (UserArgs := unit) itemKeyText
    (mkConnectionContext true true true "Id" false (-1))
    [VSlice (Some items5); VError (Some (ResolverError "this is an error"))]
    (AConnectionArgs
       (mkConnectionArgs None (Some (-2)) None (Some "") (Some tt)))
  = Returns (None,
             Some (ClientError "first/last cannot be a negative integer")).
Proof. reflexivity. Qed.

(** ** Externally-managed fields are windowed all the same *)


(** In externally-managed mode too, a rejected request is an error. *)
Example getConnection_external_negative_first :
  getConnection itemKeyText externalCtx
    [VSlice (Some items5); VPaginationInfo info5; VError None]
    (mkPaginationArgs (Some (-1)) None None None)
  = Returns (zeroConnection,
             Some (ClientError "first/last cannot be a negative integer")).
Proof. reflexivity. Qed.

(** The request of [TestEmbeddedArgs], [first: 5, after: ""] over five
    items, is one the windowing leaves alone. *)
Example getConnection_external_first_5_of_5 :
  exists connection,
    extractPaginatedRetAndErr (UserArgs := unit) itemKeyText externalCtx
      [VSlice (Some items5); VPaginationInfo info5; VError None]
      (AStruct [FPaginationArgs
                  (mkPaginationArgs (Some 5) None (Some "") None); FOther])
    = Returns (Some connection, None) /\
    Edges connection = edges5 /\
    TotalCount connection = 5 /\
    HasNextPage (Conn_PageInfo connection) = true /\
    HasPrevPage (Conn_PageInfo connection) = false /\
    StartCursor (Conn_PageInfo connection) = "MQ==" /\
    EndCursor (Conn_PageInfo connection) = "NQ==".
Proof. eexists. split; [vm_compute; reflexivity|]. repeat split. Qed.

(** ** Build-time validation of the binding mode *)

Section Binder.

Implicit Types (c : connectionContext) (sb : Collaborators)
  (ins outs : list GoType).

Lemma Validate_error_iff : forall c,
  Validate c <> None <-> embedsPaginationArgs c <> ReturnsPageInfo c.
Proof.
  intros c. unfold Validate, IsExternallyManaged.
  destruct (embedsPaginationArgs c), (ReturnsPageInfo c); cbn;
    split; intros H; try discriminate; try congruence.
Qed.

Lemma indexOfPaginationArgsFrom_miss : forall fields i,
  0 <= i ->
  (indexOfPaginationArgsFrom i fields =? -1)
  = negb (existsb isPaginationArgsType fields).
Proof.
  induction fields as [|f rest IH]; intros i Hi;
    cbn [indexOfPaginationArgsFrom existsb].
  - reflexivity.
  - destruct (isPaginationArgsType f); cbn [orb].
    + apply Z.eqb_neq. lia.
    + apply IH. lia.
Qed.




End Binder.

(** The resolver of [TestEmbeddedFail] carries both markers and is bound;
    dropping [PaginationInfo] from its results, or [PaginationArgs] from its
    arguments, is refused by [Validate]. *)
Example build_embedded_with_info :
  buildPaginatedField agreeable [EmbeddedArgs]
    [TSlice Item; TPaginationInfo; TError]
  = Returns (Some externalCtx, None).
Proof. reflexivity. Qed.

Example build_embedded_without_info :
  buildPaginatedField agreeable [EmbeddedArgs] [TSlice Item; TError]
  = Returns (None, Some (Errorf "If pagination args are embedded then pagination info must be included as a return value")).
Proof. reflexivity. Qed.

Example build_info_without_embedded :
  buildPaginatedField agreeable [Args] [TSlice Item; TPaginationInfo]
  = Returns (None, Some (Errorf "If pagination args are embedded then pagination info must be included as a return value")).
Proof. reflexivity. Qed.

Example build_managed :
  buildPaginatedField agreeable [Args] [TSlice Item]
  = Returns (Some managedCtx, None).
Proof. reflexivity. Qed.

(** ** Instances on the test fixture *)

(** C3 on the five items: [first: 2] keeps the first two edges. *)
Lemma paginateManually_truncates_witness :
  0 <= 2 /\
  2 < len (fst (fst (applyCursorsToAllEdges (Edges conn5) (Before first2)
                       (After first2)))) /\
  Edges (fst (paginateManually conn5 first2))
  = [mkEdge 1 "MQ=="; mkEdge 2 "Mg=="] /\
  HasNextPage (Conn_PageInfo (fst (paginateManually conn5 first2))) = true.
Proof.
  assert (H0 : 0 <= 2) by lia.
  assert (H1 : 2 < len (fst (fst (applyCursorsToAllEdges (Edges conn5)
                                    (Before first2) (After first2)))))
    by reflexivity.
  split; [exact H0|]. split; [exact H1|].
  destruct (proj1 (paginateManually_truncates conn5 first2 2 H0 H1)
              eq_refl eq_refl) as (_ & HE & _ & _ & HN).
  split; [exact HE | exact HN].
Defined.

(** C6 on [innerConnectionWithError]. *)
Lemma extractPaginatedRetAndErr_resolver_error_witness :
  requestPaginationArgs managedErrCtx requestFirst1
  = Returns first1AfterBlank /\
  extractPaginatedRetAndErr itemKeyText managedErrCtx outNilWithError
    requestFirst1
  = Returns (None, Some (ResolverError "this is an error")).
Proof.
  assert (H : requestPaginationArgs managedErrCtx requestFirst1
              = Returns first1AfterBlank) by reflexivity.
  split; [exact H|].
  exact (proj1 (extractPaginatedRetAndErr_resolver_error itemKeyText
                  managedErrCtx outNilWithError requestFirst1
                  first1AfterBlank H)
           zeroConnection (ResolverError "this is an error")
           eq_refl eq_refl eq_refl).
Defined.

(** C7 on the five items: the blank cursor of [first: 1, after: ""] matches
    no edge. *)
Lemma applyCursors_missing_cursor_noop_witness :
  getCursorIndex edges5 "" = -1 /\
  applyCursorsToAllEdges edges5 None (Some "") = (edges5, false, false).
Proof.
  assert (H : getCursorIndex edges5 "" = -1) by reflexivity.
  split; [exact H|].
  exact (proj1 (proj1 (applyCursors_missing_cursor_noop edges5 None (Some ""))
                  "" eq_refl H)).
Defined.

(** C8 fails on the empty edge list: [getPages] returns no entry at all. *)
Lemma getPages_empty_has_no_blank :
  hd_error (getPages (@nil (Edge Z)) 2) <> Some "".
Proof. discriminate. Qed.

(** C8 on the five items. *)
Lemma getPages_blank_then_boundaries_witness :
  edges5 <> [] /\ getPages edges5 2 = [""; "Mg=="; "NA=="].
Proof.
  assert (H : edges5 <> []) by discriminate.
  split; [exact H|].
  exact (proj2 (proj2 (getPages_blank_then_boundaries edges5 2 H))
           (mkEdge 1 "MQ==") (mkEdge 2 "Mg==") (mkEdge 3 "Mw==")
           (mkEdge 4 "NA==") (mkEdge 5 "NQ==")).
Defined.



(** * Further properties of the windowing *)

Section CursorLookupMore.

Context {Node : Type}.
Implicit Types (edges pre post : list (Edge Node)) (cursor : string).

Lemma getCursorIndexFrom_split : forall edges cursor k,
  0 <= k ->
  (getCursorIndexFrom k edges cursor = -1 /\
   forall e, In e edges -> Cursor e <> cursor) \/
  (exists pre e post,
     edges = pre ++ e :: post /\
     getCursorIndexFrom k edges cursor = k + len pre /\
     Cursor e = cursor /\
     forall e', In e' pre -> Cursor e' <> cursor).
Proof.
  induction edges as [|e rest IH]; intros cursor k Hk;
    cbn [getCursorIndexFrom].
  - left. split; [reflexivity | intros e []].
  - destruct (String.eqb_spec (Cursor e) cursor) as [Heq | Hne].
    + right. exists [], e, rest. cbn. repeat split; auto; lia.
    + destruct (IH cursor (k + 1)) as [[Hm Hall] | (pre & e1 & post & -> & Hi & Hc & Hpre)];
        [lia | |].
      * left. split; [exact Hm|]. intros e' [<- | Hin]; auto.
      * right. exists (e :: pre), e1, post. rewrite len_cons.
        repeat split; auto; [lia|]. intros e' [<- | Hin]; auto.
Qed.

(** The edges split around the first match of a cursor. *)
Lemma getCursorIndex_split : forall edges cursor,
  (getCursorIndex edges cursor = -1 /\
   forall e, In e edges -> Cursor e <> cursor) \/
  (exists pre e post,
     edges = pre ++ e :: post /\
     getCursorIndex edges cursor = len pre /\
     0 <= getCursorIndex edges cursor < len edges /\
     Cursor e = cursor /\
     forall e', In e' pre -> Cursor e' <> cursor).
Proof.
  intros edges cursor. unfold getCursorIndex.
  destruct (getCursorIndexFrom_split edges cursor 0 (Z.le_refl 0))
    as [H | (pre & e & post & -> & Hi & Hc & Hpre)]; [now left | right].
  exists pre, e, post. rewrite Hi. repeat split; auto; try lia.
  - apply len_nonneg.
  - unfold len. rewrite length_app. cbn [List.length]. lia.
Qed.

(** X1.  [getCursorIndex] returns the position of the first edge that
    carries the cursor: the edges split around it, no edge in front of it
    carries the cursor; it returns [-1] exactly when no edge does. *)
Theorem getCursorIndex_first_match : forall edges cursor,
  (getCursorIndex edges cursor = -1 /\
   forall e, In e edges -> Cursor e <> cursor) \/
  (exists pre e post,
     edges = pre ++ e :: post /\
     getCursorIndex edges cursor = len pre /\
     0 <= getCursorIndex edges cursor < len edges /\
     Cursor e = cursor /\
     forall e', In e' pre -> Cursor e' <> cursor).
Proof. exact getCursorIndex_split. Qed.

Lemma sliceTo_len_app : forall pre post, sliceTo (len pre) (pre ++ post) = pre.
Proof.
  intros pre post. unfold sliceTo, len. rewrite Nat2Z.id.
  rewrite firstn_app, Nat.sub_diag, firstn_all. cbn. apply app_nil_r.
Qed.

Lemma sliceFrom_len_app : forall pre e post,
  sliceFrom (len pre + 1) (pre ++ e :: post) = post.
Proof.
  intros pre e post. unfold sliceFrom, len.
  replace (Z.to_nat (Z.of_nat (List.length pre) + 1))
    with (List.length (pre ++ [e])) by (rewrite length_app; cbn; lia).
  change (pre ++ e :: post) with (pre ++ [e] ++ post).
  rewrite app_assoc, skipn_app, skipn_all, Nat.sub_diag. reflexivity.
Qed.

(** The window cut by the cursors, as a run of the edges. *)
Lemma applyCursors_run : forall edges before after,
  exists pre post,
    edges = pre ++ fst (fst (applyCursorsToAllEdges edges before after))
              ++ post /\
    (forall a, after = Some a -> getCursorIndex edges a <> -1 ->
       len pre = getCursorIndex edges a + 1) /\
    (forall a, after = Some a -> getCursorIndex edges a = -1 -> pre = []) /\
    (after = None -> pre = []) /\
    (forall b, before = Some b ->
       getCursorIndex (afterCut edges after) b <> -1 ->
       exists e post', post = e :: post' /\ Cursor e = b /\
         len (fst (fst (applyCursorsToAllEdges edges before after)))
         = getCursorIndex (afterCut edges after) b) /\
    (forall b, before = Some b ->
       getCursorIndex (afterCut edges after) b = -1 -> post = []) /\
    (before = None -> post = []).
Proof.
  intros edges before after.
  assert (HA : exists pre, edges = pre ++ afterCut edges after /\
     (forall a, after = Some a -> getCursorIndex edges a <> -1 ->
        len pre = getCursorIndex edges a + 1) /\
     (forall a, after = Some a -> getCursorIndex edges a = -1 -> pre = []) /\
     (after = None -> pre = [])).
  { unfold afterCut, applyAfter. destruct after as [a|].
    - destruct (getCursorIndex_split edges a)
        as [[Hm _] | (pre & e & post & E & Hi & _ & _ & _)].
      + rewrite Hm. exists []. cbn. repeat split; auto.
        intros a' [= <-] H. contradiction.
      + assert (Hne : getCursorIndex edges a <> -1)
          by (rewrite Hi; pose proof (len_nonneg _ pre); lia).
        apply Z.eqb_neq in Hne. rewrite Hne. cbn [negb fst].
        exists (pre ++ [e]). rewrite Hi. rewrite E at 2.
        rewrite sliceFrom_len_app, <- app_assoc. cbn [app].
        split; [exact E|]. split; [|split].
        * intros a' [= <-] _. rewrite Hi. unfold len. rewrite length_app.
          cbn [List.length]. lia.
        * intros a' [= <-] H. apply Z.eqb_neq in Hne. contradiction.
        * discriminate.
    - exists []. cbn. repeat split; auto; discriminate. }
  destruct HA as (pre & E & HA1 & HA2 & HA3).
  exists pre.
  unfold applyCursorsToAllEdges. unfold afterCut in *.
  destruct (applyAfter edges after) as [edges1 elemsBefore].
  cbn [fst] in *. unfold applyBefore.
  destruct before as [b|].
  - destruct (getCursorIndex_split edges1 b)
      as [[Hm _] | (mid & e & post & E1 & Hi & _ & Hc & _)].
    + rewrite Hm. change (negb (-1 =? -1)) with false. cbv iota.
      cbn [fst snd]. exists [].
      rewrite app_nil_r. repeat split; auto;
        try discriminate; intros b' [= <-] H; contradiction.
    + assert (Hne : getCursorIndex edges1 b <> -1)
        by (rewrite Hi; pose proof (len_nonneg _ mid); lia).
      pose proof Hne as Hneb. apply Z.eqb_neq in Hneb. rewrite Hneb.
      cbn [negb fst snd]. rewrite Hi. subst edges1.
      rewrite sliceTo_len_app. exists (e :: post).
      split; [exact E|].
      repeat split; auto; try discriminate.
      * intros b' [= <-] _. exists e, post. auto.
      * intros b' [= <-] H. contradiction.
  - cbn [fst snd]. exists []. rewrite app_nil_r.
    repeat split; auto; discriminate.
Qed.

(** X2.  The edges [applyCursorsToAllEdges] returns are a contiguous run of
    the edges it was given: nothing is reordered, duplicated or invented.
    An [after] that is found cuts its own edge and all before it; a [before]
    that is found cuts its own edge and all after it. *)
Theorem applyCursors_contiguous : forall edges before after,
  exists pre post,
    edges = pre ++ fst (fst (applyCursorsToAllEdges edges before after))
              ++ post /\
    (forall a, after = Some a -> getCursorIndex edges a <> -1 ->
       len pre = getCursorIndex edges a + 1) /\
    (forall a, after = Some a -> getCursorIndex edges a = -1 -> pre = []) /\
    (after = None -> pre = []) /\
    (forall b, before = Some b ->
       getCursorIndex (afterCut edges after) b <> -1 ->
       exists e post', post = e :: post' /\ Cursor e = b /\
         len (fst (fst (applyCursorsToAllEdges edges before after)))
         = getCursorIndex (afterCut edges after) b) /\
    (forall b, before = Some b ->
       getCursorIndex (afterCut edges after) b = -1 -> post = []) /\
    (before = None -> post = []).
Proof. exact applyCursors_run. Qed.

(** X3.  [elemsBefore] is reported exactly when [after] is supplied and its
    first match is not the first edge. *)
Theorem applyCursors_elemsBefore_iff : forall edges before after,
  snd (applyCursorsToAllEdges edges before after) = true <->
  exists a, after = Some a /\
            getCursorIndex edges a <> -1 /\ getCursorIndex edges a <> 0.
Proof.
  intros edges before after. unfold applyCursorsToAllEdges, applyAfter.
  destruct after as [a|].
  - destruct (Z.eqb_spec (getCursorIndex edges a) (-1)) as [Hm | Hf];
      cbn [negb].
    + destruct (applyBefore (len edges) edges before) as [e2 ea].
      cbn [snd]. split; [discriminate|].
      intros (a' & [= <-] & H & _). contradiction.
    + destruct (applyBefore _ _ before) as [e2 ea]. cbn [snd].
      destruct (Z.eqb_spec (getCursorIndex edges a) 0) as [H0 | H0];
        cbn [negb]; split; try discriminate; auto.
      * intros (a' & [= <-] & _ & H). contradiction.
      * intros _. exists a. auto.
  - destruct (applyBefore (len edges) edges before) as [e2 ea].
    cbn [snd]. split; [discriminate|]. intros (a & [=] & _).
Qed.

End CursorLookupMore.

Section PaginateManuallyMore.

Context {Node : Type}.
Implicit Types (c : Connection Node) (args : PaginationArgs).

(** A contiguous run of [l]. *)
Lemma run_firstn : forall (A : Type) (l pre w post : list A) k,
  l = pre ++ w ++ post ->
  exists pre' post', l = pre' ++ firstn k w ++ post'.
Proof.
  intros A l pre w post k ->. exists pre, (skipn k w ++ post).
  now rewrite (app_assoc (firstn k w)), firstn_skipn.
Qed.

Lemma run_skipn : forall (A : Type) (l pre w post : list A) k,
  l = pre ++ w ++ post ->
  exists pre' post', l = pre' ++ skipn k w ++ post'.
Proof.
  intros A l pre w post k ->. exists (pre ++ firstn k w), post.
  now rewrite <- app_assoc, (app_assoc (firstn k w)), firstn_skipn.
Qed.

(** What [paginateManually] never touches. *)
Lemma paginateManually_keeps : forall c args,
  TotalCount (fst (paginateManually c args)) = TotalCount c /\
  Pages (Conn_PageInfo (fst (paginateManually c args)))
  = Pages (Conn_PageInfo c) /\
  StartCursor (Conn_PageInfo (fst (paginateManually c args)))
  = StartCursor (Conn_PageInfo c) /\
  EndCursor (Conn_PageInfo (fst (paginateManually c args)))
  = EndCursor (Conn_PageInfo c) /\
  exists pre post,
    Edges c = pre ++ Edges (fst (paginateManually c args)) ++ post.
Proof.
  intros c args.
  destruct (applyCursors_run (Edges c) (Before args) (After args))
    as (pre & post & Hrun & _).
  unfold paginateManually.
  destruct (applyCursorsToAllEdges (Edges c) (Before args) (After args))
    as [[edges elemsAfter] elemsBefore].
  cbn [fst] in Hrun.
  destruct ((safeInt64Ptr (First args) <? 0) || (safeInt64Ptr (Last args) <? 0));
    [cbn; repeat split; eauto|].
  destruct (isSome (First args) && isSome (Last args));
    [cbn; repeat split; eauto|].
  destruct (First args) as [f|], (Last args) as [l|];
    cbn [withEdges withPageInfo Edges Conn_PageInfo TotalCount];
    repeat match goal with
      | |- context [if ?b then _ else _] => destruct b
      end;
    cbn; repeat split; eauto;
    unfold sliceTo, sliceFrom;
    eauto using run_firstn, run_skipn.
  - destruct (run_firstn _ _ _ _ _ (Z.to_nat f) Hrun) as (p1 & q1 & H1).
    eapply run_skipn. exact H1.
Qed.

(** X4.  Whatever the request, and whether or not it is rejected,
    [paginateManually] leaves [TotalCount], [Pages] and the two cursors of the
    receiver alone, and the edges it leaves are a contiguous run of the
    receiver's edges. *)
Theorem paginateManually_frame : forall c args,
  TotalCount (fst (paginateManually c args)) = TotalCount c /\
  Pages (Conn_PageInfo (fst (paginateManually c args)))
  = Pages (Conn_PageInfo c) /\
  StartCursor (Conn_PageInfo (fst (paginateManually c args)))
  = StartCursor (Conn_PageInfo c) /\
  EndCursor (Conn_PageInfo (fst (paginateManually c args)))
  = EndCursor (Conn_PageInfo c) /\
  exists pre post,
    Edges c = pre ++ Edges (fst (paginateManually c args)) ++ post.
Proof. exact paginateManually_keeps. Qed.

(** X5.  A request that is not rejected gets at most [first] edges, and at
    most [last] edges. *)
Theorem paginateManually_at_most : forall c args n,
  snd (paginateManually c args) = None ->
  First args = Some n \/ Last args = Some n ->
  0 <= n /\ len (Edges (fst (paginateManually c args))) <= n.
Proof.
  intros c args n Hok Hn.
  destruct (paginateManually_error_cases c args) as [[_ [msg He]] | [Hnr _]];
    [congruence|].
  clear Hok. revert Hnr. unfold rejected, paginateManually.
  destruct (applyCursorsToAllEdges (Edges c) (Before args) (After args))
    as [[edges elemsAfter] elemsBefore].
  destruct (First args) as [f|], (Last args) as [l|];
    cbn [safeInt64Ptr isSome andb]; intros Hnr.
  - exfalso. apply Hnr. right. right. split; discriminate.
  - assert (Hf : 0 <= f).
    { destruct (Z.lt_ge_cases f 0); [|assumption].
      exfalso. apply Hnr. left. eauto. }
    destruct Hn as [[= <-] | [=]].
    replace (f <? 0) with false by (symmetry; apply Z.ltb_ge; exact Hf).
    cbn [orb Z.ltb Z.compare withEdges withPageInfo Edges Conn_PageInfo].
    destruct (Z.gtb_spec (len edges) f) as [Hgt | Hle];
      cbn [fst withEdges withPageInfo Edges]; split; auto.
    unfold sliceTo, len in *. rewrite length_firstn. lia.
  - assert (Hl : 0 <= l).
    { destruct (Z.lt_ge_cases l 0); [|assumption].
      exfalso. apply Hnr. right. left. eauto. }
    destruct Hn as [[=] | [= <-]].
    replace (l <? 0) with false by (symmetry; apply Z.ltb_ge; exact Hl).
    cbn [orb Z.ltb Z.compare withEdges withPageInfo Edges Conn_PageInfo].
    destruct (Z.gtb_spec (len edges) l) as [Hgt | Hle];
      cbn [fst withEdges withPageInfo Edges]; split; auto.
    unfold sliceFrom, len in *. rewrite length_skipn. lia.
  - destruct Hn as [[=] | [=]].
Qed.

Lemma paginateManually_guards_false : forall args,
  ~ rejected args ->
  ((safeInt64Ptr (First args) <? 0) || (safeInt64Ptr (Last args) <? 0))
  = false /\
  (isSome (First args) && isSome (Last args)) = false.
Proof.
  intros args Hnr. pose proof (paginateManually_guards args) as G.
  destruct ((safeInt64Ptr (First args) <? 0)
            || (safeInt64Ptr (Last args) <? 0));
    [exfalso; apply Hnr, G; reflexivity|].
  destruct (isSome (First args) && isSome (Last args));
    [exfalso; apply Hnr, G; reflexivity|].
  split; reflexivity.
Qed.


End PaginateManuallyMore.

(** * The cursor codec *)

Module Base64Facts.

Import Base64.

Lemma sextet_inj : forall a b : nat,
  (a < 64)%nat -> (b < 64)%nat -> sextet a = sextet b -> a = b.
Proof.
  assert (H : forallb (fun a =>
                forallb (fun b =>
                  implb (Ascii.eqb (sextet a) (sextet b)) (Nat.eqb a b))
                  (seq 0 64)) (seq 0 64) = true)
    by (vm_compute; reflexivity).
  intros a b Ha Hb E. rewrite forallb_forall in H.
  specialize (H a). rewrite in_seq in H. specialize (H (conj (Nat.le_0_l a) Ha)).
  rewrite forallb_forall in H.
  specialize (H b). rewrite in_seq in H. specialize (H (conj (Nat.le_0_l b) Hb)).
  rewrite E, Ascii.eqb_refl in H. cbn in H. now apply Nat.eqb_eq.
Qed.

Lemma sextet_not_pad : forall a : nat, (a < 64)%nat -> sextet a <> padChar.
Proof.
  assert (H : forallb (fun a => negb (Ascii.eqb (sextet a) padChar))
                (seq 0 64) = true)
    by (vm_compute; reflexivity).
  intros a Ha E. rewrite forallb_forall in H.
  specialize (H a). rewrite in_seq in H. specialize (H (conj (Nat.le_0_l a) Ha)).
  rewrite E, Ascii.eqb_refl in H. discriminate.
Qed.

#[local] Opaque Nat.div Nat.modulo.

(** The encoding of byte sequences is injective. *)
Lemma encode_inj : forall n (s1 s2 : list nat),
  (List.length s1 <= n)%nat ->
  Forall isByte s1 -> Forall isByte s2 ->
  encode s1 = encode s2 -> s1 = s2.
Proof.
  unfold isByte.
  induction n as [|n IH]; intros s1 s2 Hlen F1 F2 E.
  - destruct s1; [|cbn in Hlen; lia].
    destruct s2 as [|a [|b [|c r]]]; [reflexivity | discriminate E ..].
  - destruct s1 as [|a1 [|b1 [|c1 r1]]], s2 as [|a2 [|b2 [|c2 r2]]];
      try reflexivity; try discriminate E;
      repeat match goal with
        | H : Forall _ (_ :: _) |- _ => inversion H; subst; clear H
        end;
      cbn [encode] in E;
      repeat match goal with
        | H : String _ _ = String _ _ |- _ => injection H as ? ?
        end;
      repeat match goal with
        | H : sextet _ = sextet _ |- _ =>
            apply sextet_inj in H; [| lia | lia]
        | H : sextet _ = padChar |- _ =>
            exfalso; apply sextet_not_pad in H; [exact H | lia]
        | H : padChar = sextet _ |- _ =>
            exfalso; symmetry in H; apply sextet_not_pad in H;
            [exact H | lia]
        end;
      try match goal with
        | H : encode r1 = encode r2 |- _ =>
            apply (IH r1 r2) in H;
            [subst r2 | cbn [List.length] in Hlen; lia | assumption
             | assumption]
        end;
      repeat f_equal; lia.
Qed.

#[local] Transparent Nat.div Nat.modulo.

Lemma bytes_isByte : forall s, Forall isByte (bytes s).
Proof.
  induction s as [|c s IH]; cbn [bytes]; constructor; auto.
  unfold isByte. pose proof (nat_ascii_bounded c). lia.
Qed.

Lemma bytes_inj : forall s1 s2, bytes s1 = bytes s2 -> s1 = s2.
Proof.
  induction s1 as [|c1 s1 IH]; intros [|c2 s2] E; cbn [bytes] in E;
    try discriminate; [reflexivity|].
  injection E as Ec Es. f_equal; [|now apply IH].
  rewrite <- (ascii_nat_embedding c1), <- (ascii_nat_embedding c2).
  now rewrite Ec.
Qed.

(** [EncodeToString] is injective: two texts have the same encoding only
    if they are the same text. *)
Lemma EncodeToString_injective : forall s1 s2 : string,
  EncodeToString s1 = EncodeToString s2 <-> s1 = s2.
Proof.
  intros s1 s2. split; [|now intros ->].
  unfold EncodeToString. intros E. apply bytes_inj.
  apply (encode_inj (List.length (bytes s1))); auto using bytes_isByte.
Qed.

(** The length of an encoding: four digits for every three bytes, padded. *)
Lemma encode_length : forall n (s : list nat),
  (List.length s <= n)%nat ->
  String.length (encode s) = (4 * ((List.length s + 2) / 3))%nat.
Proof.
  induction n as [|n IH]; intros s Hlen.
  - destruct s; [reflexivity | cbn in Hlen; lia].
  - destruct s as [|a [|b [|c r]]]; try reflexivity.
    cbn [encode String.length List.length] in *.
    rewrite IH by lia.
    replace (S (S (S (List.length r))) + 2)%nat
      with (1 * 3 + (List.length r + 2))%nat by lia.
    rewrite Nat.div_add_l by lia. lia.
Qed.

End Base64Facts.

(** * Cursors of the edges built from nodes *)

Section EdgesOfNodes.

Context {Node : Type} (keyText : string -> Node -> string).
Implicit Types (nodes : list Node) (key : string).

(** The cursor [getEdges] gives a node. *)
Lemma getEdges_nth : forall key nodes i n,
  nth_error nodes i = Some n ->
  nth_error (getEdges keyText key nodes) i
  = Some (mkEdge n (Base64.EncodeToString (keyText key n))).
Proof.
  intros key nodes i n H. unfold getEdges.
  rewrite nth_error_map, H. reflexivity.
Qed.

Lemma getEdges_len : forall key nodes,
  len (getEdges keyText key nodes) = len nodes.
Proof. intros. unfold len, getEdges. now rewrite length_map. Qed.

Lemma getCursorIndexFrom_getEdges : forall key nodes k i n,
  NoDup (map (keyText key) nodes) ->
  nth_error nodes i = Some n ->
  getCursorIndexFrom k (getEdges keyText key nodes)
    (Base64.EncodeToString (keyText key n))
  = k + Z.of_nat i.
Proof.
  intros key. induction nodes as [|h rest IH]; intros k i n Hnd Hn.
  - destruct i; discriminate.
  - cbn [getEdges map getCursorIndexFrom Cursor].
    inversion Hnd as [|x l Hnotin Hnd']; subst.
    destruct i as [|i]; cbn [nth_error] in Hn.
    + injection Hn as ->. rewrite String.eqb_refl. lia.
    + destruct (String.eqb_spec (Base64.EncodeToString (keyText key h))
                  (Base64.EncodeToString (keyText key n))) as [E | E].
      * exfalso. apply (proj1 (Base64Facts.EncodeToString_injective _ _)) in E.
        apply Hnotin. rewrite E. apply in_map.
        eapply nth_error_In. exact Hn.
      * fold (getEdges keyText key rest).
        rewrite (IH (k + 1) i n Hnd' Hn). lia.
Qed.

(** The position of an emitted cursor. *)
Lemma emitted_cursor_index : forall key nodes i n,
  NoDup (map (keyText key) nodes) ->
  nth_error nodes i = Some n ->
  getCursorIndex (getEdges keyText key nodes)
    (Base64.EncodeToString (keyText key n))
  = Z.of_nat i.
Proof.
  intros key nodes i n Hnd Hn. unfold getCursorIndex.
  rewrite (getCursorIndexFrom_getEdges key nodes 0 i n Hnd Hn). lia.
Qed.

(** X8.  Cursor round trip: when the key texts of the nodes are pairwise
    distinct, looking up the cursor emitted for the node at position [i]
    finds position [i]. *)
Theorem getCursorIndex_of_emitted_cursor : forall key nodes i n,
  NoDup (map (keyText key) nodes) ->
  nth_error nodes i = Some n ->
  getCursorIndex (getEdges keyText key nodes)
    (Base64.EncodeToString (keyText key n))
  = Z.of_nat i.
Proof. exact emitted_cursor_index. Qed.

(** X7.  Two edges built by [getEdges] carry the same cursor exactly when
    their nodes have the same key text: the cursor codec loses nothing. *)
Theorem getEdges_same_cursor_iff : forall key nodes e1 e2,
  In e1 (getEdges keyText key nodes) ->
  In e2 (getEdges keyText key nodes) ->
  (Cursor e1 = Cursor e2 <->
   keyText key (Edge_Node e1) = keyText key (Edge_Node e2)).
Proof.
  intros key nodes e1 e2 H1 H2. unfold getEdges in H1, H2.
  apply in_map_iff in H1. destruct H1 as (n1 & <- & _).
  apply in_map_iff in H2. destruct H2 as (n2 & <- & _).
  cbn [Cursor Edge_Node]. apply Base64Facts.EncodeToString_injective.
Qed.

Lemma getEdges_length : forall key nodes,
  List.length (getEdges keyText key nodes) = List.length nodes.
Proof. intros. unfold getEdges. apply length_map. Qed.

Lemma getEdges_skipn : forall key nodes k,
  skipn k (getEdges keyText key nodes) = getEdges keyText key (skipn k nodes).
Proof. intros. unfold getEdges. now rewrite skipn_map. Qed.

Lemma getEdges_firstn : forall key nodes k,
  firstn k (getEdges keyText key nodes) = getEdges keyText key (firstn k nodes).
Proof. intros. unfold getEdges. now rewrite firstn_map. Qed.

(** The windows cut at an emitted cursor. *)
Lemma emitted_cursor_window : forall key nodes i n,
  NoDup (map (keyText key) nodes) ->
  nth_error nodes i = Some n ->
  applyCursorsToAllEdges (getEdges keyText key nodes) None
    (Some (Base64.EncodeToString (keyText key n)))
  = (getEdges keyText key (skipn (S i) nodes), false, negb (Nat.eqb i 0)) /\
  applyCursorsToAllEdges (getEdges keyText key nodes)
    (Some (Base64.EncodeToString (keyText key n))) None
  = (getEdges keyText key (firstn i nodes),
     negb (Nat.eqb (S i) (List.length nodes)), false).
Proof.
  intros key nodes i n Hnd Hn.
  pose proof (emitted_cursor_index key nodes i n Hnd Hn) as Hi.
  assert (Hlt : (i < List.length nodes)%nat)
    by (apply nth_error_Some; congruence).
  unfold applyCursorsToAllEdges, applyAfter, applyBefore.
  rewrite Hi.
  replace (Z.of_nat i =? -1) with false by (symmetry; apply Z.eqb_neq; lia).
  cbn [negb fst snd]. split.
  - unfold sliceFrom.
    replace (Z.to_nat (Z.of_nat i + 1)) with (S i) by lia.
    rewrite getEdges_skipn. do 2 f_equal.
    destruct i; [reflexivity|]. cbn [Nat.eqb].
    apply Z.eqb_neq. lia.
  - unfold sliceTo. rewrite Nat2Z.id, getEdges_firstn, getEdges_len.
    do 3 f_equal. unfold len.
    destruct (Nat.eqb_spec (S i) (List.length nodes)) as [E | E].
    + apply Z.eqb_eq. lia.
    + apply Z.eqb_neq. lia.
Qed.

(** X9.  With pairwise distinct key texts, [after] the cursor of the node at
    position [i] keeps exactly the edges of the nodes that follow it, and
    [before] that cursor keeps exactly the edges of the nodes in front of
    it; [elemsBefore] tells whether [i] is not the first position,
    [elemsAfter] whether it is not the last. *)
Theorem applyCursors_at_emitted_cursor : forall key nodes i n,
  NoDup (map (keyText key) nodes) ->
  nth_error nodes i = Some n ->
  applyCursorsToAllEdges (getEdges keyText key nodes) None
    (Some (Base64.EncodeToString (keyText key n)))
  = (getEdges keyText key (skipn (S i) nodes), false, negb (Nat.eqb i 0)) /\
  applyCursorsToAllEdges (getEdges keyText key nodes)
    (Some (Base64.EncodeToString (keyText key n))) None
  = (getEdges keyText key (firstn i nodes),
     negb (Nat.eqb (S i) (List.length nodes)), false).
Proof. exact emitted_cursor_window. Qed.

End EdgesOfNodes.

(** * Counting the page markers *)

Section PageCount.

Context {Node : Type}.
Implicit Types (edges : list (Edge Node)).

Lemma div_succ_boundary : forall k l,
  0 <= k -> 0 < l ->
  (k + 1) / l = k / l + (if Z.rem (k + 1) l =? 0 then 1 else 0).
Proof.
  intros k l Hk Hl. rewrite Z.rem_mod_nonneg by lia.
  destruct (Z.eqb_spec ((k + 1) mod l) 0) as [E | E];
    Z.to_euclidean_division_equations; nia.
Qed.

Lemma boundariesFrom_count : forall edges n limit k,
  0 < limit -> 0 <= k -> edges <> [] -> k + len edges = n ->
  len (boundariesFrom n limit k edges) = (n - 1) / limit - k / limit.
Proof.
  induction edges as [|e rest IH]; intros n limit k Hl Hk Hne Hn;
    [contradiction|].
  rewrite len_cons in Hn. unfold boundariesFrom.
  cbn [indexedFrom filter fst]. unfold isBoundary at 1.
  replace (limit =? 0) with false by (symmetry; apply Z.eqb_neq; lia).
  cbn [negb andb].
  destruct rest as [|e' rest'].
  - replace (k =? n - 1) with true
      by (symmetry; apply Z.eqb_eq; unfold len in Hn; cbn in Hn; lia).
    cbn. replace k with (n - 1) by (unfold len in Hn; cbn in Hn; lia). lia.
  - assert (Hrec := IH n limit (k + 1) Hl ltac:(lia) ltac:(discriminate)
                      ltac:(lia)).
    unfold boundariesFrom in Hrec.
    pose proof (len_nonneg _ rest') as Hr. rewrite len_cons in Hn.
    replace (k =? n - 1) with false by (symmetry; apply Z.eqb_neq; lia).
    cbn [negb andb]. pose proof (div_succ_boundary k limit Hk Hl) as Hd.
    destruct (Z.rem (k + 1) limit =? 0); cbn [map].
    + rewrite len_cons, Hrec. lia.
    + rewrite Hrec. lia.
Qed.

Lemma boundariesFrom_no_limit : forall edges n k,
  boundariesFrom n 0 k edges = [].
Proof.
  induction edges as [|e rest IH]; intros n k; [reflexivity|].
  unfold boundariesFrom in *. cbn [indexedFrom filter fst].
  unfold isBoundary at 1. cbn [Z.eqb negb andb]. apply IH.
Qed.

(** X10.  For a positive page size, [getPages] over a non-empty edge list
    returns one marker per page: the number of edges divided by the limit,
    rounded up. *)
Theorem getPages_count : forall edges limit,
  edges <> [] -> 0 < limit ->
  len (getPages edges limit) = (len edges - 1) / limit + 1.
Proof.
  intros edges limit Hne Hl.
  rewrite (getPages_nonempty_eq edges limit Hne), len_cons.
  unfold pageBoundaries.
  rewrite (boundariesFrom_count edges (len edges) limit 0 Hl (Z.le_refl 0)
             Hne eq_refl).
  rewrite Z.div_0_l by lia. lia.
Qed.

(** The markers of [getPages]. *)
Lemma getPages_marker_facts : forall edges limit,
  (edges <> [] -> getPages edges 0 = [""]) /\
  (forall p, In p (getPages edges limit) ->
     p = "" \/ exists e, In e edges /\ Cursor e = p).
Proof.
  intros edges limit. split.
  - intros Hne. rewrite (getPages_nonempty_eq edges 0 Hne). f_equal.
    apply boundariesFrom_no_limit.
  - intros p Hp. destruct edges as [|e rest]; [contradiction|].
    rewrite getPages_nonempty_eq in Hp by discriminate.
    destruct Hp as [<- | Hp]; [now left | right].
    unfold pageBoundaries, boundariesFrom in Hp.
    apply in_map_iff in Hp. destruct Hp as ([i x] & <- & Hin).
    apply filter_In in Hin. destruct Hin as [Hin _].
    exists x. split; [|reflexivity]. clear -Hin.
    revert Hin. generalize 0. generalize (e :: rest).
    induction l as [|y l IH]; intros k Hin; [contradiction|].
    destruct Hin as [[= _ <-] | Hin]; [now left | right; eauto].
Qed.

(** X11.  A limit of zero (no [first], no [last]) gives the single blank
    marker; and whatever the limit, every marker but the blank one is the
    cursor of one of the edges. *)
Theorem getPages_markers : forall edges limit,
  (edges <> [] -> getPages edges 0 = [""]) /\
  (forall p, In p (getPages edges limit) ->
     p = "" \/ exists e, In e edges /\ Cursor e = p).
Proof. exact getPages_marker_facts. Qed.

End PageCount.

(** * The assembled connection *)

Section AssembledConnection.

Context {Node : Type} (keyText : string -> Node -> string).
Implicit Types (c : connectionContext) (args : PaginationArgs)
  (nodes : list Node) (rest : list (Value Node))
  (connection : Connection Node).

(** [setCursors] touches the two cursors only, and only when there is an
    edge. *)
Lemma setCursors_spec : forall connection,
  Edges (setCursors connection) = Edges connection /\
  TotalCount (setCursors connection) = TotalCount connection /\
  HasNextPage (Conn_PageInfo (setCursors connection))
  = HasNextPage (Conn_PageInfo connection) /\
  HasPrevPage (Conn_PageInfo (setCursors connection))
  = HasPrevPage (Conn_PageInfo connection) /\
  Pages (Conn_PageInfo (setCursors connection))
  = Pages (Conn_PageInfo connection) /\
  (StartCursor (Conn_PageInfo connection) = "" ->
   EndCursor (Conn_PageInfo connection) = "" ->
   cursorsOfPage (setCursors connection)).
Proof.
  intros [tc es [hn ec hp sc ps]]. unfold setCursors, cursorsOfPage.
  cbn [Edges Conn_PageInfo]. destruct es as [|e0 es]; cbn.
  - repeat split; auto.
  - repeat split; auto. destruct es; reflexivity.
Qed.




End AssembledConnection.

(** * The binder *)

Section BinderMore.

Implicit Types (c : connectionContext) (sb : Collaborators)
  (ins outs fields : list GoType).

Lemma indexOfPaginationArgsFrom_split : forall fields k,
  0 <= k ->
  (indexOfPaginationArgsFrom k fields = -1 /\
   existsb isPaginationArgsType fields = false) \/
  (exists pre post,
     fields = pre ++ TPaginationArgs :: post /\
     indexOfPaginationArgsFrom k fields = k + len pre /\
     existsb isPaginationArgsType pre = false).
Proof.
  induction fields as [|f rest IH]; intros k Hk;
    cbn [indexOfPaginationArgsFrom existsb].
  - now left.
  - destruct (isPaginationArgsType f) eqn:E.
    + right. exists [], rest. destruct f; try discriminate E.
      cbn. repeat split; lia.
    + destruct (IH (k + 1)) as [[Hm He] | (pre & post & -> & Hi & Hp)];
        [lia | now left | right].
      exists (f :: pre), post. rewrite len_cons. cbn [existsb app].
      rewrite E, Hp. repeat split; auto. lia.
Qed.

(** The fields split around the first [PaginationArgs]. *)
Lemma indexOfPaginationArgs_split : forall name fields,
  (indexOfPaginationArgs (TStruct name fields) = Returns (-1) /\
   existsb isPaginationArgsType fields = false) \/
  (exists pre post,
     fields = pre ++ TPaginationArgs :: post /\
     indexOfPaginationArgs (TStruct name fields) = Returns (len pre) /\
     existsb isPaginationArgsType pre = false).
Proof.
  intros name fields. cbn [indexOfPaginationArgs].
  destruct (indexOfPaginationArgsFrom_split fields 0 (Z.le_refl 0))
    as [[Hm He] | (pre & post & -> & Hi & Hp)].
  - left. now rewrite Hm.
  - right. exists pre, post. rewrite Hi. auto.
Qed.

(** X15.  On a struct, [indexOfPaginationArgs] returns the position of the
    first field of type [PaginationArgs], and [-1] exactly when the struct
    has no such field; it never panics on a struct. *)
Theorem indexOfPaginationArgs_first_field : forall name fields,
  (indexOfPaginationArgs (TStruct name fields) = Returns (-1) /\
   existsb isPaginationArgsType fields = false) \/
  (exists pre post,
     fields = pre ++ TPaginationArgs :: post /\
     indexOfPaginationArgs (TStruct name fields) = Returns (len pre) /\
     existsb isPaginationArgsType pre = false).
Proof. exact indexOfPaginationArgs_split. Qed.

(** The accepted signatures and what they record. *)
Lemma parse_signature_accepts : forall c outs nonNullable,
  hasRet c = false ->
  (snd (parsePaginatedReturnSignature c outs nonNullable) = None <->
   acceptedReturns outs nonNullable = true) /\
  (snd (parsePaginatedReturnSignature c outs nonNullable) = None ->
   hasRet (fst (parsePaginatedReturnSignature c outs nonNullable))
   = match outs with t :: _ => negb (isErrType t) | [] => false end /\
   ReturnsPageInfo (fst (parsePaginatedReturnSignature c outs nonNullable))
   = match outs with _ :: u :: _ => isPaginationInfoType u | _ => false end /\
   hasError (fst (parsePaginatedReturnSignature c outs nonNullable))
   = (hasError c || existsb isErrType outs) /\
   PaginationArgsIndex
     (fst (parsePaginatedReturnSignature c outs nonNullable))
   = PaginationArgsIndex c).
Proof.
  intros [ha hr he k rp idx] outs nn Hr. cbn [hasRet] in Hr. subst hr.
  unfold parsePaginatedReturnSignature.
  destruct outs as [|t1 [|t2 [|t3 [|t4 r]]]];
    [ | destruct t1 | destruct t1, t2 | destruct t1, t2, t3
      | destruct t1, t2, t3 ];
    destruct nn, he; cbn; split;
    try (split; intros H; first [reflexivity | discriminate H]);
    intros H; try discriminate H; repeat split; reflexivity.
Qed.

(** X16.  Starting from a context without a result yet,
    [parsePaginatedReturnSignature] accepts exactly the signatures of the
    form [result][, PaginationInfo][, error]; it then records that there is a
    result exactly when the first type is not an error, [ReturnsPageInfo]
    exactly when the second type is [PaginationInfo], and an error result
    when the last type is the error type. *)
Theorem parsePaginatedReturnSignature_accepts : forall c outs nonNullable,
  hasRet c = false ->
  (snd (parsePaginatedReturnSignature c outs nonNullable) = None <->
   acceptedReturns outs nonNullable = true) /\
  (snd (parsePaginatedReturnSignature c outs nonNullable) = None ->
   hasRet (fst (parsePaginatedReturnSignature c outs nonNullable))
   = match outs with t :: _ => negb (isErrType t) | [] => false end /\
   ReturnsPageInfo (fst (parsePaginatedReturnSignature c outs nonNullable))
   = match outs with _ :: u :: _ => isPaginationInfoType u | _ => false end /\
   hasError (fst (parsePaginatedReturnSignature c outs nonNullable))
   = (hasError c || existsb isErrType outs) /\
   PaginationArgsIndex
     (fst (parsePaginatedReturnSignature c outs nonNullable))
   = PaginationArgsIndex c).
Proof. exact parse_signature_accepts. Qed.

End BinderMore.

Section BuiltFields.

Implicit Types (c : connectionContext) (sb : Collaborators)
  (ins outs fields : list GoType).

(** What [consumePaginatedArgs] leaves when it reports no error: only
    [PaginationArgsIndex] is written, with [-1] unless the argument struct
    embeds [PaginationArgs]. *)
Lemma consumePaginatedArgs_returns : forall sb c ins c' ins',
  consumePaginatedArgs sb c ins = Returns (c', ins', None) ->
  c' = setPaginationArgsIndex (PaginationArgsIndex c') c /\
  ((PaginationArgsIndex c' = -1 /\ embedsInSignature ins = false) \/
   (exists name fields rest,
      ins = TStruct name fields :: rest /\
      PaginationArgsIndex c' = indexOfPaginationArgsFrom 0 fields /\
      PaginationArgsIndex c' <> -1 /\
      embedsInSignature ins = true)).
Proof.
  intros sb [ha hr he k rp idx] ins c' ins'. unfold consumePaginatedArgs.
  destruct ins as [|in0 rest]; [|destruct in0];
    cbn [isSelectionSetType negb indexOfPaginationArgs go_bind
           embedsInSignature];
    repeat match goal with
      | |- context [if ?b then _ else _] => destruct b eqn:?
      | |- context [match ?x with Some _ => _ | None => _ end] => destruct x
      end;
    intros H; try discriminate H; injection H as <- <-;
    (split; [reflexivity|]);
    cbn [PaginationArgsIndex setPaginationArgsIndex];
    try (left; split; reflexivity).
  all: pose proof (indexOfPaginationArgsFrom_miss fields 0 (Z.le_refl 0)) as M;
    destruct (existsb isPaginationArgsType fields) eqn:E; cbn [negb] in M.
  all: try (right; exists name, fields, rest;
            repeat split; auto; apply Z.eqb_neq; exact M).
  all: left; split; [apply Z.eqb_eq; exact M | reflexivity].
Qed.

(** The context of a built field. *)
Lemma built_field_context : forall sb ins outs c,
  buildPaginatedField sb ins outs = Returns (Some c, None) ->
  Validate c = None /\
  embedsPaginationArgs c = ReturnsPageInfo c /\
  embedsPaginationArgs c = embedsInSignature ins /\
  ReturnsPageInfo c = returnsInfoInSignature outs /\
  acceptedReturns outs true = true /\
  hasArgs c = true /\ hasRet c = true /\
  hasError c = existsb isErrType outs /\
  (exists elem more,
     outs = TSlice elem :: more /\
     getKeyFieldOnStruct sb elem = (Key c, None)) /\
  (embedsPaginationArgs c = true ->
   exists name fields rest,
     ins = TStruct name fields :: rest /\
     indexOfPaginationArgs (TStruct name fields)
     = Returns (PaginationArgsIndex c)).
Proof.
  intros sb ins outs c. unfold buildPaginatedField.
  destruct (getFuncVal sb); [discriminate|].
  destruct (consumePaginatedArgs sb newConnectionContext ins)
    as [[[c1 ins1] [e|]] | why] eqn:HC; cbn [go_bind]; try discriminate.
  apply consumePaginatedArgs_returns in HC. destruct HC as [Hc1 Hidx].
  destruct (negb (len (consumeSelectionSet sb ins1) =? 0)); [discriminate|].
  destruct (parsePaginatedReturnSignature (setHasArgs true c1) outs true)
    as [c2 [e|]] eqn:HP; [discriminate|].
  assert (Hr1 : hasRet (setHasArgs true c1) = false) by (rewrite Hc1; reflexivity).
  destruct (parse_signature_accepts (setHasArgs true c1) outs
              true Hr1) as [Hacc Hfld].
  rewrite HP in Hacc, Hfld. cbn [fst snd] in Hacc, Hfld.
  destruct (Hfld eq_refl) as (Hret & Hrpi & Herr & Hix).
  apply proj1 in Hacc. specialize (Hacc eq_refl).
  destruct (Validate c2) eqn:HV; [discriminate|].
  assert (Hbal : embedsPaginationArgs c2 = ReturnsPageInfo c2).
  { destruct (Bool.bool_dec (embedsPaginationArgs c2) (ReturnsPageInfo c2))
      as [E | E]; [exact E|].
    apply Validate_error_iff in E. congruence. }
  destruct outs as [|out0 more]; [discriminate Hacc|].
  cbn [Out0 go_bind].
  destruct out0; cbn [isSliceKind negb Elem go_bind]; try discriminate.
  destruct (constructConnType sb c2 out0); [discriminate|].
  destruct (getKeyFieldOnStruct sb out0) as [key [e|]] eqn:HK;
    [discriminate|].
  intros [= <-].
  assert (Hha : hasArgs c2 = true).
  { revert HP. unfold parsePaginatedReturnSignature.
    destruct c1 as [ha hr he k rp idx]. cbn.
    repeat match goal with
      | |- context [if ?b then _ else _] => destruct b
      | |- context [match ?x with [] => _ | _ :: _ => _ end] => destruct x
      end; cbn; intros H; try discriminate H; now injection H as <-. }
  assert (Hemb : embedsPaginationArgs (setKey key c2)
                 = embedsPaginationArgs c1).
  { unfold embedsPaginationArgs. cbn [PaginationArgsIndex setKey].
    rewrite Hix. reflexivity. }
  assert (Herr1 : hasError c1 = false) by (rewrite Hc1; reflexivity).
  assert (Hrpi' : ReturnsPageInfo c2 = returnsInfoInSignature (TSlice out0 :: more)).
  { rewrite Hrpi. unfold returnsInfoInSignature.
    destruct more as [|u [|v [|w more]]];
      [ | destruct u | destruct u, v | destruct u, v ];
      cbn in Hacc |- *; first [reflexivity | discriminate Hacc]. }
  change (Validate (setKey key c2)) with (Validate c2).
  change (ReturnsPageInfo (setKey key c2)) with (ReturnsPageInfo c2).
  change (hasArgs (setKey key c2)) with (hasArgs c2).
  change (hasRet (setKey key c2)) with (hasRet c2).
  change (hasError (setKey key c2)) with (hasError c2).
  change (Key (setKey key c2)) with key.
  change (PaginationArgsIndex (setKey key c2)) with (PaginationArgsIndex c2).
  rewrite Hemb.
  assert (Hemb1 : embedsPaginationArgs c1 = embedsInSignature ins).
  { unfold embedsPaginationArgs.
    destruct Hidx as [[H1 H2] | (nm & fs & rs & -> & H1 & H2 & H3)].
    - rewrite H1, H2. reflexivity.
    - rewrite H3. apply Z.eqb_neq in H2. now rewrite H2. }
  assert (Hemb2 : embedsPaginationArgs c1 = embedsPaginationArgs c2).
  { unfold embedsPaginationArgs. now rewrite Hix. }
  repeat split; auto; try congruence.
  - rewrite Herr. cbn [hasError setHasArgs]. rewrite Herr1. reflexivity.
  - now exists out0, more.
  - intros Het.
    destruct Hidx as [[H1 H2] | (nm & fs & rs & -> & H1 & H2 & H3)];
      [congruence|].
    exists nm, fs, rs. split; [reflexivity|].
    cbn [indexOfPaginationArgs]. rewrite Hix.
    cbn [PaginationArgsIndex setHasArgs]. now rewrite H1.
Qed.

(** X17.  Every field [buildPaginatedField] builds is in exactly one of the
    two modes: its context passes [Validate], and it embeds
    [PaginationArgs] exactly when it returns [PaginationInfo].  The resolver
    then returns a slice first, its signature has the accepted form,
    [hasError] tells whether it ends with an error, the key is the one found
    for the element type, and [PaginationArgsIndex] is the position of the
    embedded field in the argument struct. *)
Theorem buildPaginatedField_built : forall sb ins outs c,
  buildPaginatedField sb ins outs = Returns (Some c, None) ->
  Validate c = None /\
  embedsPaginationArgs c = ReturnsPageInfo c /\
  embedsPaginationArgs c = embedsInSignature ins /\
  ReturnsPageInfo c = returnsInfoInSignature outs /\
  acceptedReturns outs true = true /\
  hasArgs c = true /\ hasRet c = true /\
  hasError c = existsb isErrType outs /\
  (exists elem more,
     outs = TSlice elem :: more /\
     getKeyFieldOnStruct sb elem = (Key c, None)) /\
  (embedsPaginationArgs c = true ->
   exists name fields rest,
     ins = TStruct name fields :: rest /\
     indexOfPaginationArgs (TStruct name fields)
     = Returns (PaginationArgsIndex c)).
Proof. exact built_field_context. Qed.

End BuiltFields.

(** * Requests on built fields *)

Section BuiltFieldRequests.

Context {Node UserArgs : Type} (keyText : string -> Node -> string).
Implicit Types (c : connectionContext) (sb : Collaborators)
  (ins outs : list GoType) (out : list (Value Node))
  (args : ArgsValue UserArgs).




End BuiltFieldRequests.

(** * Windowing what is already a page *)

Section AlreadyWindowed.

Context {Node : Type}.
Implicit Types (c : Connection Node) (args : PaginationArgs).

(** X6.  Windowing a page again changes none of its edges: when neither
    cursor of the request occurs among the edges and the edges are no more
    than [first] (resp. [last]) asks for, [paginateManually] keeps them all
    and raises neither flag. *)
Theorem paginateManually_page_unchanged : forall c args,
  ~ rejected args ->
  (forall a, After args = Some a -> getCursorIndex (Edges c) a = -1) ->
  (forall b, Before args = Some b -> getCursorIndex (Edges c) b = -1) ->
  (forall n, First args = Some n -> len (Edges c) <= n) ->
  (forall n, Last args = Some n -> len (Edges c) <= n) ->
  snd (paginateManually c args) = None /\
  Edges (fst (paginateManually c args)) = Edges c /\
  HasNextPage (Conn_PageInfo (fst (paginateManually c args))) = false /\
  HasPrevPage (Conn_PageInfo (fst (paginateManually c args))) = false.
Proof.
  intros c args Hnr Ha Hb Hf Hl.
  destruct (paginateManually_error_cases c args) as [[Hr _] | [_ He]];
    [contradiction|].
  split; [exact He|]. clear He.
  assert (HW : applyCursorsToAllEdges (Edges c) (Before args) (After args)
               = (Edges c, false, false)).
  { unfold applyCursorsToAllEdges, applyAfter, applyBefore.
    destruct (After args) as [a|].
    - rewrite (Ha a eq_refl). change (negb (-1 =? -1)) with false. cbv iota.
      destruct (Before args) as [b|]; [|reflexivity].
      rewrite (Hb b eq_refl). reflexivity.
    - destruct (Before args) as [b|]; [|reflexivity].
      rewrite (Hb b eq_refl). reflexivity. }
  apply paginateManually_guards_false in Hnr.
  unfold paginateManually. rewrite HW.
  destruct Hnr as [Hneg Hboth]. rewrite Hneg, Hboth.
  cbn [withEdges withPageInfo Edges Conn_PageInfo TotalCount].
  destruct (First args) as [f|], (Last args) as [l|];
    try discriminate Hboth;
    try pose proof (Hf _ eq_refl); try pose proof (Hl _ eq_refl);
    cbn [withEdges withPageInfo Edges Conn_PageInfo TotalCount];
    repeat match goal with
      | |- context [?x >? ?n] =>
          destruct (Z.gtb_spec x n); [exfalso; lia|]
      end;
    cbn; rewrite ?andb_false_r; repeat split; reflexivity.
Qed.

End AlreadyWindowed.

(** * Page markers as cursors *)

Section FollowingMarkers.

Context {Node : Type} (keyText : string -> Node -> string).
Implicit Types (c : connectionContext) (nodes : list Node) (key : string).

Lemma indexedFrom_In : forall (A : Type) (l : list A) k i x,
  In (i, x) (indexedFrom k l) ->
  k <= i < k + len l /\ nth_error l (Z.to_nat (i - k)) = Some x.
Proof.
  induction l as [|y l IH]; intros k i x Hin; [contradiction|].
  cbn [indexedFrom] in Hin. rewrite len_cons.
  pose proof (len_nonneg _ l) as Hl.
  destruct Hin as [[= <- <-] | Hin].
  - split; [lia|]. now rewrite Z.sub_diag.
  - apply IH in Hin. destruct Hin as [Hr Hn]. split; [lia|].
    replace (Z.to_nat (i - k)) with (S (Z.to_nat (i - (k + 1)))) by lia.
    exact Hn.
Qed.

(** Every marker but the blank one is the cursor of an edge that closes a
    page: its position plus one is a multiple of the limit, and it is not
    the last edge. *)
Lemma getPages_marker_position : forall (edges : list (Edge Node)) limit p,
  0 < limit ->
  In p (getPages edges limit) -> p <> "" ->
  exists i e,
    nth_error edges i = Some e /\ Cursor e = p /\
    (S i < List.length edges)%nat /\ Z.of_nat (S i) mod limit = 0.
Proof.
  intros edges limit p Hl Hin Hp.
  destruct edges as [|e0 rest]; [contradiction|].
  rewrite getPages_nonempty_eq in Hin by discriminate.
  destruct Hin as [<- | Hin]; [contradiction|].
  unfold pageBoundaries, boundariesFrom in Hin.
  apply in_map_iff in Hin. destruct Hin as ([i e] & <- & Hin).
  apply filter_In in Hin. destruct Hin as [Hin Hb].
  apply indexedFrom_In in Hin. destruct Hin as [Hr Hn].
  cbn [fst snd] in *. unfold isBoundary in Hb.
  apply andb_prop in Hb. destruct Hb as [Hb Hrem].
  apply andb_prop in Hb. destruct Hb as [_ Hlast].
  apply Z.eqb_eq in Hrem. apply negb_true_iff, Z.eqb_neq in Hlast.
  rewrite Z.rem_mod_nonneg in Hrem by lia.
  rewrite Z.sub_0_r in Hn.
  exists (Z.to_nat i), e. unfold len in *.
  repeat split; auto; [lia|].
  replace (Z.of_nat (S (Z.to_nat i))) with (i + 1) by lia. exact Hrem.
Qed.

(** X19.  Following a page marker: when the key texts of the nodes are
    pairwise distinct and the page size is [first = n > 0], a request
    [first: n, after: p] for a marker [p] of [Pages] other than the blank
    one returns exactly the [n] edges (fewer at the end of the list) that
    start at some multiple of [n] in the node list. *)
Theorem getConnection_after_marker : forall c nodes rest n p,
  IsExternallyManaged c = false ->
  NoDup (map (keyText (Key c)) nodes) ->
  0 < n ->
  In p (getPages (getEdges keyText (Key c) nodes) n) ->
  p <> "" ->
  exists connection k,
    getConnection keyText c (VSlice (Some nodes) :: rest)
      (mkPaginationArgs (Some n) None (Some p) None)
    = Returns (connection, None) /\
    (0 < k < List.length nodes)%nat /\
    Z.of_nat k mod n = 0 /\
    Edges connection
    = getEdges keyText (Key c) (firstn (Z.to_nat n) (skipn k nodes)).
Proof.
  intros c nodes rest n p Hm Hnd Hn Hin Hp.
  destruct (getPages_marker_position _ n p Hn Hin Hp)
    as (i & e & Hnth & Hc & Hlt & Hmod).
  unfold getEdges in Hnth at 1. rewrite nth_error_map in Hnth.
  destruct (nth_error nodes i) as [m|] eqn:Hm_i; [|discriminate Hnth].
  injection Hnth as <-. cbn [Cursor] in Hc. subst p.
  assert (Hne : nodes <> []) by (destruct nodes; [destruct i|]; discriminate).
  destruct (emitted_cursor_window keyText (Key c) nodes i m Hnd Hm_i)
    as [HW _].
  rewrite (getConnection_nonempty keyText c nodes rest _ Hne). cbv zeta.
  unfold paginateManually.
  cbn [Edges Before After First Last]. rewrite HW.
  cbn [safeInt64Ptr isSome andb orb Z.ltb Z.compare].
  replace (n <? 0) with false by (symmetry; apply Z.ltb_ge; lia).
  cbn [orb withEdges withPageInfo Edges Conn_PageInfo TotalCount].
  unfold getEdges in Hlt. rewrite length_map in Hlt.
  rewrite Hm.
  match goal with
  | |- context [if ?b then _ else _] => destruct b eqn:Hcut
  end;
    eexists; exists (S i); (split; [reflexivity|]);
    (split; [lia|]); (split; [exact Hmod|]);
    match goal with
    | |- Edges (setCursors ?x) = _ =>
        rewrite (proj1 (setCursors_spec x))
    end;
    cbn [Edges withEdges withPageInfo].
  - unfold sliceTo. apply getEdges_firstn.
  - rewrite firstn_all2; [reflexivity|].
    rewrite Z.gtb_ltb in Hcut. apply Z.ltb_ge in Hcut.
    rewrite getEdges_len in Hcut. unfold len in Hcut. lia.
Qed.

End FollowingMarkers.

(** * The blank cursor *)

Section BlankCursor.

Context {Node : Type} (keyText : string -> Node -> string).
Implicit Types (c : connectionContext) (nodes : list Node) (key : string).

Lemma EncodeToString_blank : forall s : string,
  Base64.EncodeToString s = "" <-> s = "".
Proof.
  intros s. change "" with (Base64.EncodeToString "") at 1.
  apply Base64Facts.EncodeToString_injective.
Qed.

Lemma getCursorIndex_blank : forall key nodes,
  (forall n, In n nodes -> keyText key n <> "") ->
  getCursorIndex (getEdges keyText key nodes) "" = -1.
Proof.
  intros key nodes Hk. apply getCursorIndex_miss. intros e He.
  unfold getEdges in He. apply in_map_iff in He.
  destruct He as (n & <- & Hn). cbn [Cursor]. intros E.
  apply (proj1 (EncodeToString_blank _)) in E. exact (Hk n Hn E).
Qed.

Lemma afterCut_incl : forall (edges : list (Edge Node)) after e,
  In e (afterCut edges after) -> In e edges.
Proof.
  intros edges after e. unfold afterCut, applyAfter.
  destruct after as [a|]; [|auto].
  destruct (negb (getCursorIndex edges a =? -1)); cbn [fst]; [|auto].
  unfold sliceFrom. intros H.
  rewrite <- (firstn_skipn (Z.to_nat (getCursorIndex edges a + 1)) edges).
  apply in_or_app. now right.
Qed.

(** X20.  The blank cursor is the cursor of no node whose key text is not
    empty, so [after: ""] and [before: ""] change nothing: the request is
    answered as if the blank cursor had not been given. *)
Theorem getConnection_blank_cursor : forall c nodes rest f l a b,
  (forall n, In n nodes -> keyText (Key c) n <> "") ->
  getConnection keyText c (VSlice (Some nodes) :: rest)
    (mkPaginationArgs f l (Some "") b)
  = getConnection keyText c (VSlice (Some nodes) :: rest)
      (mkPaginationArgs f l None b) /\
  getConnection keyText c (VSlice (Some nodes) :: rest)
    (mkPaginationArgs f l a (Some ""))
  = getConnection keyText c (VSlice (Some nodes) :: rest)
      (mkPaginationArgs f l a None).
Proof.
  intros c nodes rest f l a b Hk.
  pose proof (getCursorIndex_blank (Key c) nodes Hk) as Hblank.
  destruct nodes as [|n0 ns]; [split; reflexivity|].
  rewrite !(getConnection_nonempty keyText c (n0 :: ns) rest)
    by discriminate.
  cbv zeta. cbn [Limit First Last].
  split.
  - assert (E : forall conn : Connection Node,
               Edges conn = getEdges keyText (Key c) (n0 :: ns) ->
               paginateManually conn (mkPaginationArgs f l (Some "") b)
               = paginateManually conn (mkPaginationArgs f l None b)).
    { intros conn HE. unfold paginateManually, applyCursorsToAllEdges.
      cbn [Before After First Last applyAfter]. rewrite HE, Hblank.
      change (negb (-1 =? -1)) with false. cbv iota.
      destruct (applyBefore _ _ b) as [e2 ea]. cbn [isSome andb].
      reflexivity. }
    rewrite E by reflexivity. reflexivity.
  - assert (E : forall conn : Connection Node,
               Edges conn = getEdges keyText (Key c) (n0 :: ns) ->
               paginateManually conn (mkPaginationArgs f l a (Some ""))
               = paginateManually conn (mkPaginationArgs f l a None)).
    { intros conn HE. unfold paginateManually, applyCursorsToAllEdges.
      cbn [Before After First Last]. rewrite HE.
      assert (Hmiss : getCursorIndex
                        (afterCut (getEdges keyText (Key c) (n0 :: ns)) a) ""
                      = -1).
      { apply getCursorIndex_miss. intros e He.
        apply afterCut_incl in He. revert e He.
        apply getCursorIndex_miss. exact Hblank. }
      unfold afterCut in Hmiss.
      destruct (applyAfter _ a) as [e1 eb]. cbn [fst] in Hmiss.
      unfold applyBefore. rewrite Hmiss.
      change (negb (-1 =? -1)) with false. cbv iota.
      cbn [isSome andb]. rewrite ?andb_false_r. reflexivity. }
    rewrite E by reflexivity. reflexivity.
Qed.

End BlankCursor.

(** * Forward and backward pagination *)

Section Paging.

Context {Node : Type} (keyText : string -> Node -> string).
Implicit Types (c : connectionContext) (conn : Connection Node)
  (args : PaginationArgs) (nodes : list Node) (rest : list (Value Node)).

(** [paginateManually] for a request with [first] alone among the counts,
    in terms of the window the cursors leave. *)
Lemma paginateManually_first_only : forall conn args n w ea eb,
  applyCursorsToAllEdges (Edges conn) (Before args) (After args)
  = (w, ea, eb) ->
  First args = Some n -> Last args = None -> 0 <= n ->
  snd (paginateManually conn args) = None /\
  TotalCount (fst (paginateManually conn args)) = TotalCount conn /\
  Edges (fst (paginateManually conn args)) = firstn (Z.to_nat n) w /\
  HasNextPage (Conn_PageInfo (fst (paginateManually conn args)))
  = (isSome (Before args) && ea) || (len w >? n) /\
  HasPrevPage (Conn_PageInfo (fst (paginateManually conn args)))
  = isSome (After args) && eb.
Proof.
  intros conn args n w ea eb HW HF HL Hn.
  unfold paginateManually. rewrite HW, HF, HL.
  cbn [safeInt64Ptr isSome andb orb Z.ltb Z.compare].
  replace (n <? 0) with false by (symmetry; apply Z.ltb_ge; exact Hn).
  cbn [orb withEdges withPageInfo Edges Conn_PageInfo TotalCount].
  destruct (Z.gtb_spec (len w) n) as [Hgt | Hle];
    cbn; rewrite ?orb_true_r, ?orb_false_r; repeat split; auto.
  symmetry. apply firstn_all2. unfold len in Hle. lia.
Qed.

Lemma paginateManually_last_only : forall conn args n w ea eb,
  applyCursorsToAllEdges (Edges conn) (Before args) (After args)
  = (w, ea, eb) ->
  First args = None -> Last args = Some n -> 0 <= n ->
  snd (paginateManually conn args) = None /\
  TotalCount (fst (paginateManually conn args)) = TotalCount conn /\
  Edges (fst (paginateManually conn args))
  = skipn (List.length w - Z.to_nat n) w /\
  HasNextPage (Conn_PageInfo (fst (paginateManually conn args)))
  = isSome (Before args) && ea /\
  HasPrevPage (Conn_PageInfo (fst (paginateManually conn args)))
  = (isSome (After args) && eb) || (len w >? n).
Proof.
  intros conn args n w ea eb HW HF HL Hn.
  unfold paginateManually. rewrite HW, HF, HL.
  cbn [safeInt64Ptr isSome andb orb Z.ltb Z.compare].
  replace (n <? 0) with false by (symmetry; apply Z.ltb_ge; exact Hn).
  cbn [orb withEdges withPageInfo Edges Conn_PageInfo TotalCount].
  destruct (Z.gtb_spec (len w) n) as [Hgt | Hle];
    cbn; rewrite ?orb_true_r, ?orb_false_r; repeat split; auto.
  - unfold sliceFrom, len. f_equal. lia.
  - unfold len in Hle.
    replace (List.length w - Z.to_nat n)%nat with 0%nat by lia. reflexivity.
Qed.

(** What framework-managed [getConnection] returns, read off the result of
    [paginateManually]. *)
Lemma getConnection_of_window : forall c nodes rest args,
  IsExternallyManaged c = false ->
  nodes <> [] ->
  snd (paginateManually
         (mkConnection (len nodes) (getEdges keyText (Key c) nodes)
            (mkPageInfo false "" false ""
               (getPages (getEdges keyText (Key c) nodes) (Limit args))))
         args) = None ->
  exists connection,
    getConnection keyText c (VSlice (Some nodes) :: rest) args
    = Returns (connection, None) /\
    Edges connection
    = Edges (fst (paginateManually
         (mkConnection (len nodes) (getEdges keyText (Key c) nodes)
            (mkPageInfo false "" false ""
               (getPages (getEdges keyText (Key c) nodes) (Limit args))))
         args)) /\
    HasNextPage (Conn_PageInfo connection)
    = HasNextPage (Conn_PageInfo (fst (paginateManually
         (mkConnection (len nodes) (getEdges keyText (Key c) nodes)
            (mkPageInfo false "" false ""
               (getPages (getEdges keyText (Key c) nodes) (Limit args))))
         args))) /\
    HasPrevPage (Conn_PageInfo connection)
    = HasPrevPage (Conn_PageInfo (fst (paginateManually
         (mkConnection (len nodes) (getEdges keyText (Key c) nodes)
            (mkPageInfo false "" false ""
               (getPages (getEdges keyText (Key c) nodes) (Limit args))))
         args))) /\
    TotalCount connection
    = TotalCount (fst (paginateManually
         (mkConnection (len nodes) (getEdges keyText (Key c) nodes)
            (mkPageInfo false "" false ""
               (getPages (getEdges keyText (Key c) nodes) (Limit args))))
         args)).
Proof.
  intros c nodes rest args Hm Hne He.
  rewrite (getConnection_nonempty keyText c nodes rest args Hne). cbv zeta.
  rewrite He, Hm.
  match goal with
  | |- context [setCursors ?x] =>
      destruct (setCursors_spec x) as (SE & STC & SN & SP & _)
  end.
  eexists. split; [reflexivity|]. rewrite SE, STC, SN, SP. auto.
Qed.


(** X22.  Forward pagination.  With pairwise distinct key texts, a
    framework-managed request [first: n, after: cursor of the node at
    position i] returns the edges of the next [n] nodes (fewer at the end of
    the list); [HasNextPage] tells exactly whether nodes follow them;
    [HasPrevPage] is true unless [i] is the first position (where it is
    false although that first node precedes the page). *)
Theorem getConnection_forward_page : forall c nodes rest n i m,
  IsExternallyManaged c = false ->
  NoDup (map (keyText (Key c)) nodes) ->
  nth_error nodes i = Some m ->
  0 <= n ->
  exists connection,
    getConnection keyText c (VSlice (Some nodes) :: rest)
      (mkPaginationArgs (Some n) None
         (Some (Base64.EncodeToString (keyText (Key c) m))) None)
    = Returns (connection, None) /\
    Edges connection
    = getEdges keyText (Key c) (firstn (Z.to_nat n) (skipn (S i) nodes)) /\
    HasNextPage (Conn_PageInfo connection)
    = (Z.of_nat (S i) + n <? len nodes) /\
    HasPrevPage (Conn_PageInfo connection) = negb (Nat.eqb i 0) /\
    TotalCount connection = len nodes.
Proof.
  intros c nodes rest n i m Hm Hnd Hi Hn.
  assert (Hne : nodes <> []) by (destruct nodes; [destruct i|]; discriminate).
  assert (Hlt : (i < List.length nodes)%nat)
    by (apply nth_error_Some; congruence).
  destruct (emitted_cursor_window keyText (Key c) nodes i m Hnd Hi)
    as [HW _].
  match goal with
  | |- context [getConnection _ _ _ ?args] =>
      destruct (paginateManually_first_only
                  (mkConnection (len nodes) (getEdges keyText (Key c) nodes)
                     (mkPageInfo false "" false ""
                        (getPages (getEdges keyText (Key c) nodes)
                           (Limit args))))
                  args n _ _ _ HW eq_refl eq_refl Hn)
        as (He & HT & HE & HN & HP);
      destruct (getConnection_of_window c nodes rest args Hm Hne He)
        as (connection & HG & GE & GN & GP & GT)
  end.
  exists connection. split; [exact HG|].
  rewrite GE, GN, GP, GT, HE, HN, HP, HT, getEdges_firstn, getEdges_len.
  cbn [isSome Before After andb orb TotalCount].
  repeat split. unfold len. rewrite length_skipn.
  destruct (Z.ltb_spec (Z.of_nat (S i) + n) (Z.of_nat (List.length nodes)));
    [apply Z.gtb_lt | rewrite Z.gtb_ltb; apply Z.ltb_ge]; lia.
Qed.

(** X23.  Backward pagination.  With pairwise distinct key texts, a
    framework-managed request [last: n, before: cursor of the node at
    position i] returns the edges of the [n] nodes in front of it (fewer at
    the start of the list); [HasPrevPage] tells exactly whether nodes precede
    them; [HasNextPage] is true unless [i] is the last position. *)
Theorem getConnection_backward_page : forall c nodes rest n i m,
  IsExternallyManaged c = false ->
  NoDup (map (keyText (Key c)) nodes) ->
  nth_error nodes i = Some m ->
  0 <= n ->
  exists connection,
    getConnection keyText c (VSlice (Some nodes) :: rest)
      (mkPaginationArgs None (Some n) None
         (Some (Base64.EncodeToString (keyText (Key c) m))))
    = Returns (connection, None) /\
    Edges connection
    = getEdges keyText (Key c) (skipn (i - Z.to_nat n) (firstn i nodes)) /\
    HasPrevPage (Conn_PageInfo connection) = (n <? Z.of_nat i) /\
    HasNextPage (Conn_PageInfo connection)
    = negb (Nat.eqb (S i) (List.length nodes)) /\
    TotalCount connection = len nodes.
Proof.
  intros c nodes rest n i m Hm Hnd Hi Hn.
  assert (Hne : nodes <> []) by (destruct nodes; [destruct i|]; discriminate).
  assert (Hlt : (i < List.length nodes)%nat)
    by (apply nth_error_Some; congruence).
  destruct (emitted_cursor_window keyText (Key c) nodes i m Hnd Hi)
    as [_ HW].
  match goal with
  | |- context [getConnection _ _ _ ?args] =>
      destruct (paginateManually_last_only
                  (mkConnection (len nodes) (getEdges keyText (Key c) nodes)
                     (mkPageInfo false "" false ""
                        (getPages (getEdges keyText (Key c) nodes)
                           (Limit args))))
                  args n _ _ _ HW eq_refl eq_refl Hn)
        as (He & HT & HE & HN & HP);
      destruct (getConnection_of_window c nodes rest args Hm Hne He)
        as (connection & HG & GE & GN & GP & GT)
  end.
  exists connection. split; [exact HG|].
  rewrite GE, GN, GP, GT, HE, HN, HP, HT, getEdges_skipn, getEdges_len,
    getEdges_length.
  cbn [isSome Before After andb orb TotalCount].
  rewrite length_firstn.
  replace (Nat.min i (List.length nodes)) with i by lia.
  repeat split. unfold len. rewrite length_firstn.
  rewrite Z.gtb_ltb. f_equal. lia.
Qed.

End Paging.

(** * Further instances on the test fixture *)

Lemma items5_distinct_keys : NoDup (map (itemKeyText "Id") items5).
Proof.
  repeat constructor; cbn; intros H;
    repeat (destruct H as [H | H]; [discriminate H|]); exact H.
Qed.

Lemma items5_keys_not_blank :
  forall n, In n items5 -> itemKeyText (Key managedCtx) n <> "".
Proof.
  intros n H. repeat (destruct H as [<- | H]; [discriminate|]). contradiction.
Qed.

Lemma first2_not_rejected : ~ rejected first2.
Proof.
  intros [(f & [= <-] & H) | [(l & [=] & _) | [_ H]]];
    [lia | now apply H].
Qed.

(** X5 on the five items: [first: 2] leaves at most two edges. *)
Lemma paginateManually_at_most_witness :
  snd (paginateManually conn5 first2) = None /\
  (First first2 = Some 2 \/ Last first2 = Some 2) /\
  0 <= 2 /\ len (Edges (fst (paginateManually conn5 first2))) <= 2.
Proof.
  assert (H1 : snd (paginateManually conn5 first2) = None) by reflexivity.
  assert (H2 : First first2 = Some 2 \/ Last first2 = Some 2)
    by (left; reflexivity).
  split; [exact H1|]. split; [exact H2|].
  exact (paginateManually_at_most conn5 first2 2 H1 H2).
Defined.

(** X8 on the five items: the cursor of the third item is found third. *)
Lemma getCursorIndex_of_emitted_cursor_witness :
  NoDup (map (itemKeyText "Id") items5) /\
  nth_error items5 2 = Some 3 /\
  getCursorIndex (getEdges itemKeyText "Id" items5)
    (Base64.EncodeToString (itemKeyText "Id" 3))
  = Z.of_nat 2.
Proof.
  assert (H : nth_error items5 2 = Some 3) by reflexivity.
  split; [exact items5_distinct_keys|]. split; [exact H|].
  exact (getCursorIndex_of_emitted_cursor itemKeyText "Id" items5 2 3
           items5_distinct_keys H).
Defined.

(** X9 on the five items: after the third item come the fourth and fifth. *)
Lemma applyCursors_at_emitted_cursor_witness :
  NoDup (map (itemKeyText "Id") items5) /\
  nth_error items5 2 = Some 3 /\
  applyCursorsToAllEdges (getEdges itemKeyText "Id" items5) None
    (Some (Base64.EncodeToString (itemKeyText "Id" 3)))
  = (getEdges itemKeyText "Id" (skipn 3 items5), false, negb (Nat.eqb 2 0)).
Proof.
  assert (H : nth_error items5 2 = Some 3) by reflexivity.
  split; [exact items5_distinct_keys|]. split; [exact H|].
  exact (proj1 (applyCursors_at_emitted_cursor itemKeyText "Id" items5 2 3
                  items5_distinct_keys H)).
Defined.

(** X10 on the five items: pages of two make three markers. *)
Lemma getPages_count_witness :
  edges5 <> [] /\ 0 < 2 /\
  len (getPages edges5 2) = (len edges5 - 1) / 2 + 1.
Proof.
  assert (H : edges5 <> []) by discriminate.
  assert (L : 0 < 2) by lia.
  split; [exact H|]. split; [exact L|].
  exact (getPages_count edges5 2 H L).
Defined.




(** X16 on the signature [([]Item, PaginationInfo, error)]. *)
Lemma parsePaginatedReturnSignature_accepts_witness :
  hasRet newConnectionContext = false /\
  (snd (parsePaginatedReturnSignature newConnectionContext outsExternal true)
   = None <->
   acceptedReturns outsExternal true = true).
Proof.
  assert (H : hasRet newConnectionContext = false) by reflexivity.
  split; [exact H|].
  exact (proj1 (parsePaginatedReturnSignature_accepts newConnectionContext
                  outsExternal true H)).
Defined.

(** X17 on the resolver of [TestEmbeddedArgs]. *)
Lemma buildPaginatedField_built_witness :
  buildPaginatedField agreeable [EmbeddedArgs] outsExternal
  = Returns (Some externalCtx, None) /\
  Validate externalCtx = None /\
  embedsPaginationArgs externalCtx = ReturnsPageInfo externalCtx.
Proof.
  assert (H : buildPaginatedField agreeable [EmbeddedArgs] outsExternal
              = Returns (Some externalCtx, None)) by reflexivity.
  split; [exact H|].
  destruct (buildPaginatedField_built agreeable [EmbeddedArgs] outsExternal
              externalCtx H) as (HV & HB & _).
  split; [exact HV | exact HB].
Defined.


(** X6 on the two edges [first: 2] has left. *)
Lemma paginateManually_page_unchanged_witness :
  ~ rejected first2 /\
  Edges (fst (paginateManually (fst (paginateManually conn5 first2)) first2))
  = Edges (fst (paginateManually conn5 first2)).
Proof.
  split; [exact first2_not_rejected|].
  refine (proj1 (proj2 (paginateManually_page_unchanged
                          (fst (paginateManually conn5 first2)) first2
                          first2_not_rejected _ _ _ _))).
  - intros a [=].
  - intros b [=].
  - intros n [= <-]. vm_compute. discriminate.
  - intros n [=].
Defined.

(** X19 on the five items: the marker of the second page of two. *)
Lemma getConnection_after_marker_witness :
  IsExternallyManaged managedCtx = false /\
  NoDup (map (itemKeyText (Key managedCtx)) items5) /\
  0 < 2 /\
  In "Mg==" (getPages (getEdges itemKeyText (Key managedCtx) items5) 2) /\
  "Mg==" <> "" /\
  exists connection k,
    getConnection itemKeyText managedCtx [VSlice (Some items5)]
      (mkPaginationArgs (Some 2) None (Some "Mg==") None)
    = Returns (connection, None) /\
    (0 < k < List.length items5)%nat /\
    Z.of_nat k mod 2 = 0 /\
    Edges connection
    = getEdges itemKeyText (Key managedCtx)
        (firstn (Z.to_nat 2) (skipn k items5)).
Proof.
  assert (M : IsExternallyManaged managedCtx = false) by reflexivity.
  assert (L : 0 < 2) by lia.
  assert (I : In "Mg==" (getPages (getEdges itemKeyText (Key managedCtx)
                                     items5) 2))
    by (right; left; reflexivity).
  assert (B : "Mg==" <> "") by discriminate.
  split; [exact M|]. split; [exact items5_distinct_keys|].
  split; [exact L|]. split; [exact I|]. split; [exact B|].
  exact (getConnection_after_marker itemKeyText managedCtx items5 [] 2
           "Mg==" M items5_distinct_keys L I B).
Defined.

(** X20 on the request [first: 1, after: ""] of the tests. *)
Lemma getConnection_blank_cursor_witness :
  (forall n, In n items5 -> itemKeyText (Key managedCtx) n <> "") /\
  getConnection itemKeyText managedCtx [VSlice (Some items5)]
    (mkPaginationArgs (Some 1) None (Some "") None)
  = getConnection itemKeyText managedCtx [VSlice (Some items5)]
      (mkPaginationArgs (Some 1) None None None).
Proof.
  split; [exact items5_keys_not_blank|].
  exact (proj1 (getConnection_blank_cursor itemKeyText managedCtx items5 []
                  (Some 1) None None None items5_keys_not_blank)).
Defined.

(** X7 on the five items. *)
Lemma getEdges_same_cursor_iff_witness :
  In (mkEdge 2 "Mg==") (getEdges itemKeyText "Id" items5) /\
  In (mkEdge 4 "NA==") (getEdges itemKeyText "Id" items5) /\
  ("Mg==" = "NA==" <-> itemKeyText "Id" 2 = itemKeyText "Id" 4).
Proof.
  assert (H1 : In (mkEdge 2 "Mg==") (getEdges itemKeyText "Id" items5))
    by (right; left; reflexivity).
  assert (H2 : In (mkEdge 4 "NA==") (getEdges itemKeyText "Id" items5))
    by (do 3 right; left; reflexivity).
  split; [exact H1|]. split; [exact H2|].
  exact (getEdges_same_cursor_iff itemKeyText "Id" items5
           (mkEdge 2 "Mg==") (mkEdge 4 "NA==") H1 H2).
Defined.


(** X22 on the five items: two after the second. *)
Lemma getConnection_forward_page_witness :
  IsExternallyManaged managedCtx = false /\
  NoDup (map (itemKeyText (Key managedCtx)) items5) /\
  nth_error items5 1 = Some 2 /\ 0 <= 2 /\
  exists connection,
    getConnection itemKeyText managedCtx [VSlice (Some items5)]
      (mkPaginationArgs (Some 2) None (Some "Mg==") None)
    = Returns (connection, None) /\
    Edges connection = [mkEdge 3 "Mw=="; mkEdge 4 "NA=="] /\
    HasNextPage (Conn_PageInfo connection) = true /\
    HasPrevPage (Conn_PageInfo connection) = true.
Proof.
  assert (M : IsExternallyManaged managedCtx = false) by reflexivity.
  assert (H : nth_error items5 1 = Some 2) by reflexivity.
  assert (L : 0 <= 2) by lia.
  split; [exact M|]. split; [exact items5_distinct_keys|].
  split; [exact H|]. split; [exact L|].
  destruct (getConnection_forward_page itemKeyText managedCtx items5 [] 2 1 2
              M items5_distinct_keys H L)
    as (connection & HG & HE & HN & HP & _).
  exists connection. split; [exact HG|]. split; [exact HE|].
  split; [exact HN | exact HP].
Defined.

(** X23 on the five items: two before the fourth. *)
Lemma getConnection_backward_page_witness :
  IsExternallyManaged managedCtx = false /\
  NoDup (map (itemKeyText (Key managedCtx)) items5) /\
  nth_error items5 3 = Some 4 /\ 0 <= 2 /\
  exists connection,
    getConnection itemKeyText managedCtx [VSlice (Some items5)]
      (mkPaginationArgs None (Some 2) None (Some "NA=="))
    = Returns (connection, None) /\
    Edges connection = [mkEdge 2 "Mg=="; mkEdge 3 "Mw=="] /\
    HasPrevPage (Conn_PageInfo connection) = true /\
    HasNextPage (Conn_PageInfo connection) = true.
Proof.
  assert (M : IsExternallyManaged managedCtx = false) by reflexivity.
  assert (H : nth_error items5 3 = Some 4) by reflexivity.
  assert (L : 0 <= 2) by lia.
  split; [exact M|]. split; [exact items5_distinct_keys|].
  split; [exact H|]. split; [exact L|].
  destruct (getConnection_backward_page itemKeyText managedCtx items5 [] 2 3 4
              M items5_distinct_keys H L)
    as (connection & HG & HE & HP & HN & _).
  exists connection. split; [exact HG|]. split; [exact HE|].
  split; [exact HP | exact HN].
Defined.
